(** * Wheel strategy bot: a shallow embedding of models.py, main.py and
    wheel_controller.py.

    Conventions of the embedding:
    - Python [float] values (strike, premium) are modelled as exact rationals
      [Q] of their decimal literals; the comparisons the validators make with
      the constants 0, 1000 and 10000 are the same on both.
    - Python strings are modelled as [string]: the model covers ASCII text
      only, on which [str.lower] and [str.upper] are the ASCII case maps
      (non-ASCII characters, such as those whose case maps leave ASCII,
      are outside it).
    - A Python exception is the [Raise] case of the small exception monad
      [Exc]; [try]/[except Exception] is a [match] on it. *)

From Stdlib Require Import ZArith QArith String Ascii List Bool Lia.
From Stdlib Require Import Sorting.Mergesort Sorting.Permutation Sorting.Sorted Structures.Orders.
Import ListNotations.
Open Scope string_scope.
Open Scope Z_scope.

(** ** Python exceptions *)

Inductive PyExc : Type :=
| ValueError (msg : string)
| IndexError (msg : string)
| OtherError (msg : string).

Definition exc_msg (e : PyExc) : string :=
  match e with ValueError m | IndexError m | OtherError m => m end.

Inductive Exc (A : Type) : Type :=
| Ret (a : A)
| Raise (e : PyExc).
Arguments Ret {A} a.
Arguments Raise {A} e.

Definition bind {A B} (c : Exc A) (k : A -> Exc B) : Exc B :=
  match c with Ret a => k a | Raise e => Raise e end.

Notation "x <- c ;; k" := (bind c (fun x => k))
  (at level 61, c at next level, right associativity).

(** Decimal rendering of a non-negative integer, as [str(n)] / [f"{n}"]. *)
Fixpoint uint_to_string (u : Decimal.uint) : string :=
  match u with
  | Decimal.Nil => ""
  | Decimal.D0 u => String "0" (uint_to_string u)
  | Decimal.D1 u => String "1" (uint_to_string u)
  | Decimal.D2 u => String "2" (uint_to_string u)
  | Decimal.D3 u => String "3" (uint_to_string u)
  | Decimal.D4 u => String "4" (uint_to_string u)
  | Decimal.D5 u => String "5" (uint_to_string u)
  | Decimal.D6 u => String "6" (uint_to_string u)
  | Decimal.D7 u => String "7" (uint_to_string u)
  | Decimal.D8 u => String "8" (uint_to_string u)
  | Decimal.D9 u => String "9" (uint_to_string u)
  end.

Definition z_to_dec (z : Z) : string := uint_to_string (N.to_uint (Z.to_N z)).

(** [f"{n:02d}"] for a non-negative [n]. *)
Definition pad2 (n : Z) : string :=
  if n <? 10 then "0" ++ z_to_dec n else z_to_dec n.

(** ** Python's [datetime.date] (proleptic Gregorian calendar) *)
Module PyDate.

Record date := mkdate { year : Z; month : Z; day : Z }.

Definition MINYEAR : Z := 1.
Definition MAXYEAR : Z := 9999.

Definition is_leap (y : Z) : bool :=
  (y mod 4 =? 0) && (negb (y mod 100 =? 0) || (y mod 400 =? 0)).

Definition days_in_month (y m : Z) : Z :=
  if m =? 2 then (if is_leap y then 29 else 28)
  else if (m =? 4) || (m =? 6) || (m =? 9) || (m =? 11) then 30
  else 31.

(** [_DAYS_BEFORE_MONTH[m]] of the non-leap year. *)
Definition days_before_month_table (m : Z) : Z :=
  nth (Z.to_nat m) [-1; 0; 31; 59; 90; 120; 151; 181; 212; 243; 273; 304; 334] 0.

Definition days_before_month (y m : Z) : Z :=
  days_before_month_table m + (if (2 <? m) && is_leap y then 1 else 0).

Definition days_before_year (y : Z) : Z :=
  let y1 := y - 1 in y1 * 365 + y1 / 4 - y1 / 100 + y1 / 400.

Definition toordinal (d : date) : Z :=
  days_before_year (year d) + days_before_month (year d) (month d) + day d.

(** [date.weekday()]: Monday is 0, Friday is 4. *)
Definition weekday (d : date) : Z := (toordinal d + 6) mod 7.

(** The constructor [datetime.date(year, month, day)], which raises
    [ValueError] out of range. *)
Definition mk_date (y m d : Z) : Exc date :=
  if negb ((MINYEAR <=? y) && (y <=? MAXYEAR)) then
    Raise (ValueError ("year " ++ z_to_dec y ++ " is out of range"))
  else if negb ((1 <=? m) && (m <=? 12)) then
    Raise (ValueError "month must be in 1..12")
  else if negb ((1 <=? d) && (d <=? days_in_month y m)) then
    Raise (ValueError "day is out of range for month")
  else Ret (mkdate y m d).

Definition valid_date (d : date) : bool :=
  match mk_date (year d) (month d) (day d) with Ret _ => true | Raise _ => false end.

(** [a <= b] on dates. *)
Definition date_le (a b : date) : bool :=
  (year a <? year b)
  || ((year a =? year b) && ((month a <? month b)
                             || ((month a =? month b) && (day a <=? day b)))).

End PyDate.
Import PyDate.

(** ** ASCII string helpers: [str.lower], [str.upper], [str.strip], [in] *)
Module PyStr.

Definition ascii_lower (c : ascii) : ascii :=
  let n := nat_of_ascii c in
  if (65 <=? n)%nat && (n <=? 90)%nat then ascii_of_nat (n + 32) else c.

Definition ascii_upper (c : ascii) : ascii :=
  let n := nat_of_ascii c in
  if (97 <=? n)%nat && (n <=? 122)%nat then ascii_of_nat (n - 32) else c.

Fixpoint str_map (f : ascii -> ascii) (s : string) : string :=
  match s with
  | EmptyString => EmptyString
  | String c s' => String (f c) (str_map f s')
  end.

Definition lower (s : string) : string := str_map ascii_lower s.
Definition upper (s : string) : string := str_map ascii_upper s.

(** [str.isspace] on one ASCII character: space, [\t\n\v\f\r] (9..13) and
    the separators [\x1c]..[\x1f] (28..31). *)
Definition is_space (c : ascii) : bool :=
  let n := nat_of_ascii c in
  (n =? 32)%nat || ((9 <=? n)%nat && (n <=? 13)%nat) || ((28 <=? n)%nat && (n <=? 31)%nat).

Fixpoint lstrip (s : string) : string :=
  match s with
  | String c s' => if is_space c then lstrip s' else s
  | EmptyString => EmptyString
  end.

Fixpoint rev_str (s : string) (acc : string) : string :=
  match s with
  | EmptyString => acc
  | String c s' => rev_str s' (String c acc)
  end.

Definition strip (s : string) : string :=
  rev_str (lstrip (rev_str (lstrip s) EmptyString)) EmptyString.

(** [x in l] for a list of strings. *)
Definition str_in (x : string) (l : list string) : bool :=
  existsb (String.eqb x) l.

(** [sub in s] *)
Definition contains (sub s : string) : bool :=
  match String.index 0 sub s with Some _ => true | None => false end.

End PyStr.

(** ** wheel_controller.py *)
Module Controller.

(** [range(lo, hi)] *)
Definition range (lo hi : Z) : list Z :=
  map (fun k => lo + Z.of_nat k) (seq 0 (Z.to_nat (hi - lo))).

(** [[x for x in l if p(x)]] where evaluating [p] may raise. *)
Fixpoint filter_exc {A} (p : A -> Exc bool) (l : list A) : Exc (list A) :=
  match l with
  | [] => Ret []
  | x :: l' =>
      b <- p x ;;
      r <- filter_exc p l' ;;
      Ret (if b then x :: r else r)
  end.

(** The next month of [today]: [(year, month)] of the source. *)
Definition following_month (today : date) : Z * Z :=
  if month today <? 12 then (year today, month today + 1) else (year today + 1, 1).

(** [f"{year}-{month:02d}-{day:02d}"] *)
Definition iso_format (y m d : Z) : string := z_to_dec y ++ "-" ++ pad2 m ++ "-" ++ pad2 d.

Definition next_expiry (today : date) : Exc string :=
  let '(y, m) := following_month today in
  fridays <- filter_exc (fun d => dt <- mk_date y m d ;; Ret (weekday dt =? 4))
                        (range 15 22) ;;
  match fridays with
  | third_friday :: _ => Ret (iso_format y m third_friday)
  | [] => Raise (IndexError "list index out of range")
  end.

(** The recommended signal, a JSON dict with five keys. *)
Record csignal := mkcsignal {
  c_action : string; c_symbol : string; c_strike : Q; c_expiry : string; c_premium : Q }.

(** The content of [bot_state.json]. *)
Record wheel_state := mkwheel {
  w_state : string; shares_held : Z; last_action : option csignal }.

(** [load_state]: the file's content, or the initial state when the file is
    missing ([None]). *)
Definition load_state (file : option wheel_state) : wheel_state :=
  match file with
  | Some st => st
  | None => mkwheel "cash" 0 None
  end.

Definition build_signal (today : date) (state : wheel_state) : Exc (option csignal) :=
  if String.eqb (w_state state) "cash" then
    e <- next_expiry today ;;
    Ret (Some (mkcsignal "sell_put" "AAPL" (180 # 1) e (150 # 100)))
  else if String.eqb (w_state state) "assigned" then
    e <- next_expiry today ;;
    Ret (Some (mkcsignal "sell_call" "AAPL" (190 # 1) e (175 # 100)))
  else Ret None.

(** What [requests.post(WEBHOOK_URL, json=signal)] does: a response with a
    status code whose [.json()] may raise, or an exception of its own. *)
Inductive post_outcome : Type :=
| PostResponse (status_code : Z) (body : Exc string)
| PostRaised (e : PyExc).

Definition send_signal (o : post_outcome) : Z * string :=
  match o with
  | PostResponse code (Ret j) => (code, j)
  | PostResponse _ (Raise e) => (500, "{'error': '" ++ exc_msg e ++ "'}")
  | PostRaised e => (500, "{'error': '" ++ exc_msg e ++ "'}")
  end.

(** How a run of the script ends. *)
Inductive run_outcome : Type :=
| ExitUnknownState                       (** [exit(1)] on a [None] signal *)
| Submitted (webhook_result : Z * string) (saved : wheel_state)
| NotApproved.

Definition set_state (st : wheel_state) (s : string) : wheel_state :=
  mkwheel s (shares_held st) (last_action st).
Definition set_shares (st : wheel_state) (n : Z) : wheel_state :=
  mkwheel (w_state st) n (last_action st).
Definition set_last_action (st : wheel_state) (a : option csignal) : wheel_state :=
  mkwheel (w_state st) (shares_held st) a.

(** The state update after an approved submission. *)
Definition update_state (state : wheel_state) (signal : csignal) : wheel_state :=
  let state1 :=
    if String.eqb (c_action signal) "sell_put" then set_state state "waiting_assignment"
    else if String.eqb (c_action signal) "sell_call" then set_shares (set_state state "cash") 0
    else state in
  set_last_action state1 (Some signal).

(** The [__main__] block: [file] is the state file, [answer] the operator's
    input line and [post] the outcome of the webhook call. *)
Definition main (today : date) (file : option wheel_state) (answer : string)
    (post : post_outcome) : Exc run_outcome :=
  let state := load_state file in
  signal <- build_signal today state ;;
  match signal with
  | None => Ret ExitUnknownState
  | Some signal =>
      if String.eqb (PyStr.lower (PyStr.strip answer)) "y" then
        let res := send_signal post in
        Ret (Submitted res (update_state state signal))
      else Ret NotApproved
  end.

(** What [save_state] wrote during the run, if anything. *)
Definition saved_state (r : Exc run_outcome) : option wheel_state :=
  match r with
  | Ret (Submitted _ st) => Some st
  | _ => None
  end.

End Controller.


(** ** models.py: the pydantic model [WebhookSignal] *)
Module Models.

(** The request body as parsed JSON. [p_quantity] is [None] when the key is
    absent, [Some None] for an explicit [null]. *)
Record payload := mkpayload {
  p_action : string; p_symbol : string; p_strike : Q; p_expiry : string;
  p_premium : Q; p_quantity : option (option Z) }.

(** A validated [WebhookSignal]. *)
Record WebhookSignal := mksignal {
  action : string; symbol : string; strike : Q; expiry : string;
  premium : Q; quantity : option Z }.

(** Python's [round(v, 2)]: round half to even at the second decimal,
    taken on the exact value of the number (prices are modelled as exact
    rationals, not as binary doubles). *)
Definition round_half_even (q : Q) : Z :=
  let n := Qnum q in
  let d := Zpos (Qden q) in
  let fl := n / d in
  let r := n - fl * d in
  match Z.compare (2 * r) d with
  | Lt => fl
  | Gt => fl + 1
  | Eq => if Z.even fl then fl else fl + 1
  end.

Definition round2 (v : Q) : Q := Qred (round_half_even (v * (100 # 1)) # 100).

(** [v > c] and [v <= c] on floats. *)
Definition Qgtb (v c : Q) : bool := negb (Qle_bool v c).

(** Field constraint [gt=0]. *)
Definition gt0 (v : Q) : Exc Q :=
  if Qgtb v 0 then Ret v else Raise (OtherError "Input should be greater than 0").

Definition validate_action (v : string) : Exc string :=
  let allowed_actions := ["sell_put"; "sell_call"] in
  if negb (PyStr.str_in (PyStr.lower v) allowed_actions) then
    Raise (ValueError "Action must be one of: sell_put, sell_call")
  else Ret (PyStr.lower v).

Definition is_alpha (c : ascii) : bool :=
  let n := nat_of_ascii c in
  ((65 <=? n)%nat && (n <=? 90)%nat) || ((97 <=? n)%nat && (n <=? 122)%nat).

Fixpoint all_alpha (s : string) : bool :=
  match s with
  | EmptyString => true
  | String c s' => is_alpha c && all_alpha s'
  end.

Definition alpha_1_10 (s : string) : bool :=
  (1 <=? String.length s)%nat && (String.length s <=? 10)%nat && all_alpha s.

(** [s] without a single final newline, if it ends with one. *)
Fixpoint drop_final_newline (s : string) : option string :=
  match s with
  | EmptyString => None
  | String c EmptyString => if Ascii.eqb c "010"%char then Some EmptyString else None
  | String c s' => option_map (String c) (drop_final_newline s')
  end.

(** [re.match(r'^[A-Za-z]{1,10}$', v)]: Python's [$] also matches just before
    a final newline. *)
Definition symbol_re_match (v : string) : bool :=
  alpha_1_10 v
  || match drop_final_newline v with Some c => alpha_1_10 c | None => false end.

(** Field constraints [min_length=1, max_length=10], then [validate_symbol]. *)
Definition validate_symbol (v : string) : Exc string :=
  if (String.length v <? 1)%nat then
    Raise (OtherError "String should have at least 1 character")
  else if (10 <? String.length v)%nat then
    Raise (OtherError "String should have at most 10 characters")
  else if negb (symbol_re_match v) then
    Raise (ValueError "Symbol must contain only letters and be 1-10 characters long")
  else Ret (PyStr.upper v).

(** Field constraint [gt=0], then [validate_strike]. *)
Definition validate_strike (v0 : Q) : Exc Q :=
  v <- gt0 v0 ;;
  if Qle_bool v 0 then Raise (ValueError "Strike price must be greater than 0")
  else if Qgtb v (10000 # 1) then Raise (ValueError "Strike price seems unreasonably high")
  else Ret (round2 v).

(** Field constraint [gt=0], then [validate_premium]. *)
Definition validate_premium (v0 : Q) : Exc Q :=
  v <- gt0 v0 ;;
  if Qle_bool v 0 then Raise (ValueError "Premium must be greater than 0")
  else if Qgtb v (1000 # 1) then Raise (ValueError "Premium seems unreasonably high")
  else Ret (round2 v).

(** [quantity: Optional[int] = Field(default=1, gt=0)]: the default is not
    validated and [None] is allowed. *)
Definition validate_quantity (v : option (option Z)) : Exc (option Z) :=
  match v with
  | None => Ret (Some 1)
  | Some None => Ret None
  | Some (Some z) =>
      if 0 <? z then Ret (Some z) else Raise (OtherError "Input should be greater than 0")
  end.

(** *** [datetime.strptime(v, '%Y-%m-%d')]
    The format compiles to the regex
    [(?P<Y>\d\d\d\d)-(?P<m>1[0-2]|0[1-9]|[1-9])-(?P<d>3[01]|[12]\d|0[1-9]|[1-9]| [1-9])],
    matched at the start of [v]; text left after the match is an error. *)

Definition is_digit (c : ascii) : bool :=
  let n := nat_of_ascii c in (48 <=? n)%nat && (n <=? 57)%nat.
Definition is_nonzero_digit (c : ascii) : bool :=
  let n := nat_of_ascii c in (49 <=? n)%nat && (n <=? 57)%nat.
Definition dval (c : ascii) : Z := Z.of_nat (nat_of_ascii c) - 48.
Definition is_char (c : ascii) (n : nat) : bool := (nat_of_ascii c =? n)%nat.

(** [%m] followed by [-]: the two-digit alternatives are tried first. *)
Definition parse_month_dash (s : string) : option (Z * string) :=
  match s with
  | String a (String b (String c rest)) =>
      if ((is_char a 49 && (48 <=? nat_of_ascii b)%nat && (nat_of_ascii b <=? 50)%nat)
          || (is_char a 48 && is_nonzero_digit b)) && is_char c 45
      then Some (10 * dval a + dval b, rest)
      else if is_nonzero_digit a && is_char b 45 then Some (dval a, String c rest)
      else None
  | String a (String b rest) =>
      if is_nonzero_digit a && is_char b 45 then Some (dval a, rest) else None
  | _ => None
  end.

(** [%d], the last directive: the first alternative that matches is taken. *)
Definition parse_day (s : string) : option (Z * string) :=
  match s with
  | String a (String b rest) =>
      if is_char a 51 && (is_char b 48 || is_char b 49) then Some (10 * dval a + dval b, rest)
      else if (is_char a 49 || is_char a 50) && is_digit b then Some (10 * dval a + dval b, rest)
      else if is_char a 48 && is_nonzero_digit b then Some (dval b, rest)
      else if is_nonzero_digit a then Some (dval a, String b rest)
      else if is_char a 32 && is_nonzero_digit b then Some (dval b, rest)
      else None
  | String a EmptyString => if is_nonzero_digit a then Some (dval a, EmptyString) else None
  | EmptyString => None
  end.

Definition strptime_ymd (v : string) : Exc date :=
  let no_match := Raise (ValueError ("time data '" ++ v ++ "' does not match format '%Y-%m-%d'")) in
  match v with
  | String y1 (String y2 (String y3 (String y4 (String dash rest)))) =>
      if is_digit y1 && is_digit y2 && is_digit y3 && is_digit y4 && is_char dash 45 then
        match parse_month_dash rest with
        | Some (m, rest') =>
            match parse_day rest' with
            | Some (d, EmptyString) =>
                mk_date (1000 * dval y1 + 100 * dval y2 + 10 * dval y3 + dval y4) m d
            | Some (_, extra) => Raise (ValueError ("unconverted data remains: " ++ extra))
            | None => no_match
            end
        | None => no_match
        end
      else no_match
  | _ => no_match
  end.

(** [validate_expiry] against the current date [today]. *)
Definition validate_expiry (today : date) (v : string) : Exc string :=
  let body :=
    expiry_date <- strptime_ymd v ;;
    if date_le expiry_date today then Raise (ValueError "Expiry date must be in the future")
    else Ret v in
  match body with
  | Ret r => Ret r
  | Raise (ValueError m) =>
      if PyStr.contains "does not match format" m
      then Raise (ValueError "Expiry date must be in YYYY-MM-DD format")
      else Raise (ValueError m)
  | Raise e => Raise e
  end.

(** The error a field contributes to pydantic's [ValidationError]. *)
Definition field_err {A} (loc : string) (r : Exc A) : list (string * string) :=
  match r with
  | Ret _ => []
  | Raise (ValueError m) => [(loc, "Value error, " ++ m)]
  | Raise e => [(loc, exc_msg e)]
  end.

Inductive validation : Type :=
| Valid (s : WebhookSignal)
| Invalid (errors : list (string * string)).

(** Constructing [WebhookSignal] from the body: every field is validated, in declaration
    order, and all errors are reported together. *)
Definition validate (today : date) (p : payload) : validation :=
  let a := validate_action (p_action p) in
  let sy := validate_symbol (p_symbol p) in
  let k := validate_strike (p_strike p) in
  let e := validate_expiry today (p_expiry p) in
  let pr := validate_premium (p_premium p) in
  let q := validate_quantity (p_quantity p) in
  match a, sy, k, e, pr, q with
  | Ret a, Ret sy, Ret k, Ret e, Ret pr, Ret q => Valid (mksignal a sy k e pr q)
  | _, _, _, _, _, _ =>
      Invalid (field_err "action" a ++ field_err "symbol" sy ++ field_err "strike" k
               ++ field_err "expiry" e ++ field_err "premium" pr ++ field_err "quantity" q)%list
  end.

(** The body a validated signal serialises to ([model_dump()]). *)
Definition raw_form (s : WebhookSignal) : payload :=
  mkpayload (action s) (symbol s) (strike s) (expiry s) (premium s) (Some (quantity s)).

(** The same body with another [premium]. *)
Definition with_premium (p : payload) (v : Q) : payload :=
  mkpayload (p_action p) (p_symbol p) (p_strike p) (p_expiry p) v (p_quantity p).

End Models.

(** ** main.py: the webhook endpoint and the order pipeline *)
Module Pipeline.
Import Models.

(** A row of the [trading_signals] table. *)
Record db_record := mkrecord {
  r_id : Z; r_action : string; r_symbol : string; r_strike : Q; r_expiry : string;
  r_premium : Q; r_quantity : option Z; r_status : string;
  alpaca_order_id : option string; created_at : Z; processed_at : option Z;
  error_message : option string }.

Definition set_status (r : db_record) (st : string) : db_record :=
  mkrecord (r_id r) (r_action r) (r_symbol r) (r_strike r) (r_expiry r) (r_premium r)
    (r_quantity r) st (alpaca_order_id r) (created_at r) (processed_at r) (error_message r).
Definition set_order_id (r : db_record) (o : option string) : db_record :=
  mkrecord (r_id r) (r_action r) (r_symbol r) (r_strike r) (r_expiry r) (r_premium r)
    (r_quantity r) (r_status r) o (created_at r) (processed_at r) (error_message r).
Definition set_processed_at (r : db_record) (t : option Z) : db_record :=
  mkrecord (r_id r) (r_action r) (r_symbol r) (r_strike r) (r_expiry r) (r_premium r)
    (r_quantity r) (r_status r) (alpaca_order_id r) (created_at r) t (error_message r).
Definition set_error_message (r : db_record) (m : option string) : db_record :=
  mkrecord (r_id r) (r_action r) (r_symbol r) (r_strike r) (r_expiry r) (r_premium r)
    (r_quantity r) (r_status r) (alpaca_order_id r) (created_at r) (processed_at r) m.

(** The [order_details] dict of [place_options_order]. *)
Record order_details := mkorder {
  od_symbol : string; od_option_type : string; od_strike : Q; od_expiry : string;
  od_premium : Q; od_side : string; od_order_type : string; od_time_in_force : string }.

(** The dicts [place_options_order] returns: [{"status": "simulated",
    "order_details": ...}] or [{"error": msg}]. *)
Inductive place_result : Type :=
| PSimulated (od : order_details)
| PError (msg : string).

(** The environment of one request: [alpaca_client] configured or [None];
    [broker_fault], the error the brokerage would answer if it were sent an
    order (for instance options trading not enabled on the account); [now],
    the clock. No code path sends an order: the [try] of
    [place_options_order] only builds the order dict and logs it, so
    nothing reads [broker_fault]. *)
Record env := mkenv { alpaca_client : bool; broker_fault : option PyExc; now : Z }.

Definition place_options_order (E : env) (s : WebhookSignal) (option_type : string)
    : Exc place_result :=
  let body :=
    if negb (alpaca_client E) then Ret (PError "Alpaca client not initialized")
    else
      let od := mkorder (symbol s) option_type (strike s) (expiry s) (premium s)
                        "sell" "market" "day" in
      Ret (PSimulated od) in
  match body with
  | Ret r => Ret r
  | Raise e => Ret (PError (exc_msg e))
  end.

(** The dict returned by [process_sell_put] / [process_sell_call]. *)
Record sell_result := mkresult {
  res_action : string; res_symbol : string; res_strike : Q; res_expiry : string;
  res_premium : Q; alpaca_order : option place_result }.

(** [process_sell_put] ([name = "sell_put"], [option_type = "put"]) and
    [process_sell_call] ([name = "sell_call"], [option_type = "call"]), which
    are the same code; returns the result and the committed record. *)
Definition process_sell (name option_type : string) (E : env) (s : WebhookSignal)
    (db_signal : db_record) : sell_result * db_record :=
  let '(alpaca_result, rec) :=
    if alpaca_client E then
      match place_options_order E s option_type with
      | Ret r =>
          let rec1 := set_processed_at (set_status db_signal "processed") (Some (now E)) in
          let rec2 :=
            match r with
            | PSimulated od => set_order_id rec1 (Some (od_symbol od))
            | PError _ => rec1
            end in
          (Some r, rec2)
      | Raise e =>
          (Some (PError (exc_msg e)),
           set_error_message (set_status db_signal "error") (Some (exc_msg e)))
      end
    else
      (None, set_error_message (set_status db_signal "no_broker")
                               (Some "Alpaca client not available")) in
  (mkresult name (symbol s) (strike s) (expiry s) (premium s) alpaca_result, rec).

Definition process_sell_put := process_sell "sell_put" "put".
Definition process_sell_call := process_sell "sell_call" "call".

Inductive response : Type :=
| Resp200 (status : string) (message : string) (signal_id : Z) (signal : WebhookSignal)
          (result : sell_result)
| HTTPError (status_code : Z) (detail : string)
| Resp422 (errors : list (string * string)).

(** [process_webhook]: the table is an append-only list; the new row gets
    the next id and is committed before the action is checked. The session's
    [add]/[commit]/[refresh] are taken to succeed, and the timestamps of one
    request are read from one clock value [now E]. *)
Definition process_webhook (E : env) (s : WebhookSignal) (db : list db_record)
    : response * list db_record :=
  let id := Z.of_nat (length db) + 1 in
  let db_signal := mkrecord id (action s) (symbol s) (strike s) (expiry s) (premium s)
                            (quantity s) "pending" None (now E) None None in
  if negb (PyStr.str_in (action s) ["sell_put"; "sell_call"]) then
    (HTTPError 400 ("Invalid action: " ++ action s ++ ". Supported actions: sell_put, sell_call"),
     app db [db_signal])
  else if String.eqb (action s) "sell_put" then
    let '(result, rec) := process_sell_put E s db_signal in
    (Resp200 "success" ("Successfully processed " ++ action s ++ " signal") id s result,
     app db [rec])
  else if String.eqb (action s) "sell_call" then
    let '(result, rec) := process_sell_call E s db_signal in
    (Resp200 "success" ("Successfully processed " ++ action s ++ " signal") id s result,
     app db [rec])
  else
    (* [result] unbound: [UnboundLocalError], caught by [except Exception] *)
    let m := "cannot access local variable 'result'" in
    (HTTPError 500 ("Internal server error: " ++ m),
     app db [set_error_message (set_status db_signal "error") (Some m)]).

(** [POST /webhook]: FastAPI validates the body into [WebhookSignal] before
    the handler runs and answers 422 on failure. *)
Definition webhook (today : date) (E : env) (p : payload) (db : list db_record)
    : response * list db_record :=
  match validate today p with
  | Invalid errs => (Resp422 errs, db)
  | Valid s => process_webhook E s db
  end.

End Pipeline.

(** ** Runs of the script and requests to the service *)

(** Successive runs of the [__main__] block of wheel_controller.py on the
    same state file: a run that saves replaces the file, any other run
    (not approved, [exit(1)], or an uncaught exception) leaves it as it was. *)
Module ControllerRuns.
Import Controller.

Definition after_run (file : option wheel_state) (today : date) (answer : string)
    (post : post_outcome) : option wheel_state :=
  match saved_state (main today file answer post) with
  | Some st => Some st
  | None => file
  end.

Fixpoint run_all (runs : list (date * string * post_outcome)) (file : option wheel_state)
    : option wheel_state :=
  match runs with
  | [] => file
  | (today, answer, post) :: rs => run_all rs (after_run file today answer post)
  end.

End ControllerRuns.

(** main.py outside the webhook handler. *)
Module Service.
Import Models Pipeline.

(** Python truthiness of an environment variable read with [os.getenv]. *)
Definition truthy (v : option string) : bool :=
  match v with Some s => negb (String.eqb s "") | None => false end.

(** [get_alpaca_client]: [api_key] and [secret_key] are [APCA_API_KEY_ID] and
    [APCA_API_SECRET_KEY]; [connect] is the outcome of building the REST
    client and calling [api.get_account()]. [true] is a client, [false] is
    [None]. *)
Definition get_alpaca_client (api_key secret_key : option string) (connect : Exc string)
    : bool :=
  if negb (truthy api_key) || negb (truthy secret_key) then false
  else match connect with Ret _ => true | Raise _ => false end.

(** The requests served on one table, in order; the client is the one set
    up at start-up. *)
Fixpoint serve (client : bool) (reqs : list (date * option PyExc * Z * payload))
    (db : list db_record) : list db_record :=
  match reqs with
  | [] => db
  | (today, f, t, p) :: rs => serve client rs (snd (webhook today (mkenv client f t) p db))
  end.

(** [ORDER BY created_at DESC] as a boolean order; rows with equal
    [created_at] keep their table order (SQL leaves that order open). *)
Module CreatedDesc <: Orders.TotalLeBool'.
Definition t := db_record.
Definition leb (a b : db_record) : bool := created_at b <=? created_at a.
Infix "<=?" := leb (at level 70, no associativity).
Lemma leb_total : forall a b, leb a b = true \/ leb b a = true.
Proof. intros a b. unfold leb. destruct (Z.le_ge_cases (created_at b) (created_at a));
  [left|right]; apply Z.leb_le; lia. Qed.
End CreatedDesc.
Module SignalSort := Mergesort.Sort CreatedDesc.

(** One entry of the [GET /signals] answer. *)
Record signal_view := mkview {
  v_id : Z; v_action : string; v_symbol : string; v_strike : Q; v_expiry : string;
  v_premium : Q; v_quantity : option Z; v_status : string; v_created_at : option Z;
  v_processed_at : option Z; v_error_message : option string }.

Definition view (r : db_record) : signal_view :=
  mkview (r_id r) (r_action r) (r_symbol r) (r_strike r) (r_expiry r) (r_premium r)
    (r_quantity r) (r_status r) (Some (created_at r)) (processed_at r) (error_message r).

(** [get_signals]: [order_by(created_at.desc()).limit(50)]. *)
Definition get_signals (db : list db_record) : list signal_view :=
  map view (firstn 50 (SignalSort.sort db)).

End Service.

(** ** Predicates used in the statements below *)
Module Aux.
Import Models Pipeline.

(** [z_to_dec y] is four digits that read back as [y]. *)
Definition four_digits (y : Z) : bool :=
  match z_to_dec y with
  | String a (String b (String c (String e EmptyString))) =>
      is_digit a && is_digit b && is_digit c && is_digit e
      && (1000 * dval a + 100 * dval b + 10 * dval c + dval e =? y)
  | _ => false
  end.

(** [fmt d] is read back as [d] by the [%d] directive. *)
Definition day_parses (fmt : Z -> string) (d : Z) : bool :=
  match parse_day (fmt d) with Some (d', EmptyString) => d' =? d | _ => false end.

(** The row written by a request served with or without a client. *)
Definition row_ok (client : bool) (r : db_record) : Prop :=
  if client
  then r_status r = "processed" /\ error_message r = None
  else r_status r = "no_broker" /\ error_message r = Some "Alpaca client not available" /\
       alpaca_order_id r = None /\ processed_at r = None.

(** The request's body passes validation. *)
Definition valid_req (r : date * option PyExc * Z * payload) : bool :=
  let '(today, _, _, p) := r in
  match validate today p with Valid _ => true | Invalid _ => false end.

End Aux.

(** * Properties *)

Example next_expiry_nov_2025 :
  Controller.next_expiry (mkdate 2025 11 3) = Ret "2025-12-19".
Proof. reflexivity. Qed.

Example next_expiry_dec_2025 :
  Controller.next_expiry (mkdate 2025 12 31) = Ret "2026-01-16".
Proof. reflexivity. Qed.

(** ** Dates and [next_expiry] *)
Module ExpiryFacts.
Import Controller.

Lemma days_in_month_ge_28 (y m : Z) : 28 <= days_in_month y m.
Proof.
  unfold days_in_month.
  destruct (m =? 2); [destruct (is_leap y)|destruct (_ || _)]; lia.
Qed.

Lemma mk_date_ret (y m d : Z) :
  1 <= y <= 9999 -> 1 <= m <= 12 -> 1 <= d <= 28 -> mk_date y m d = Ret (mkdate y m d).
Proof.
  intros Hy Hm Hd. pose proof (days_in_month_ge_28 y m).
  unfold mk_date, MINYEAR, MAXYEAR.
  replace ((1 <=? y) && (y <=? 9999)) with true by (symmetry; apply andb_true_intro; split; apply Z.leb_le; lia).
  replace ((1 <=? m) && (m <=? 12)) with true by (symmetry; apply andb_true_intro; split; apply Z.leb_le; lia).
  replace ((1 <=? d) && (d <=? days_in_month y m)) with true
    by (symmetry; apply andb_true_intro; split; apply Z.leb_le; lia).
  reflexivity.
Qed.

Lemma valid_date_bounds (t : date) :
  valid_date t = true -> 1 <= year t <= 9999 /\ 1 <= month t <= 12.
Proof.
  unfold valid_date, mk_date, MINYEAR, MAXYEAR.
  destruct ((1 <=? year t) && (year t <=? 9999)) eqn:Ey; simpl; [|discriminate].
  destruct ((1 <=? month t) && (month t <=? 12)) eqn:Em; simpl; [|discriminate].
  intros _. apply andb_true_iff in Ey, Em.
  destruct Ey as [Ey1 Ey2], Em as [Em1 Em2].
  apply Z.leb_le in Ey1, Ey2, Em1, Em2. lia.
Qed.

Lemma filter_exc_ret {A} (p : A -> Exc bool) (q : A -> bool) (l : list A) :
  (forall x, In x l -> p x = Ret (q x)) -> filter_exc p l = Ret (filter q l).
Proof.
  induction l as [|x l IH]; intros H; simpl; [reflexivity|].
  rewrite (H x (or_introl eq_refl)). simpl.
  rewrite IH by (intros; apply H; right; assumption). reflexivity.
Qed.

Lemma weekday_mkdate (y m d : Z) :
  weekday (mkdate y m d) = (days_before_year y + days_before_month y m + 6 + d) mod 7.
Proof. unfold weekday, toordinal. simpl. f_equal. lia. Qed.

(** Seven consecutive days contain exactly one of each weekday. *)
Lemma first_friday (c : Z) :
  exists d rest, filter (fun d => (c + d) mod 7 =? 4) (range 15 22) = d :: rest
                 /\ 15 <= d <= 21 /\ (c + d) mod 7 = 4.
Proof.
  assert (E : forall k, (c + k) mod 7 = (c mod 7 + k) mod 7)
    by (intro k; now rewrite Zplus_mod_idemp_l).
  change (range 15 22) with [15; 16; 17; 18; 19; 20; 21]. cbn [filter].
  rewrite !E.
  assert (Hr : 0 <= c mod 7 < 7) by (apply Z.mod_pos_bound; lia).
  remember (c mod 7) as r eqn:Hrdef.
  assert (r = 0 \/ r = 1 \/ r = 2 \/ r = 3 \/ r = 4 \/ r = 5 \/ r = 6) as Hc by lia.
  destruct Hc as [->|[->|[->|[->|[->|[->| ->]]]]]];
    simpl; eexists; eexists; (split; [reflexivity|]); rewrite E; (split; [lia|reflexivity]).
Qed.

Lemma next_expiry_spec (today : date) :
  1 <= year today <= 9999 -> 1 <= month today <= 12 ->
  ~ (year today = MAXYEAR /\ month today = 12) ->
  exists y m d,
    following_month today = (y, m) /\
    next_expiry today = Ret (iso_format y m d) /\
    valid_date (mkdate y m d) = true /\
    15 <= d <= 21 /\ weekday (mkdate y m d) = 4.
Proof.
  intros Hy Hm Hmax. unfold MAXYEAR in Hmax.
  destruct (following_month today) as [y m] eqn:Ef.
  assert (Hym : 1 <= y <= 9999 /\ 1 <= m <= 12).
  { unfold following_month in Ef.
    destruct (month today <? 12) eqn:Elt; injection Ef as <- <-.
    - apply Z.ltb_lt in Elt. lia.
    - apply Z.ltb_ge in Elt. lia. }
  destruct Hym as [Hy' Hm'].
  set (c := days_before_year y + days_before_month y m + 6).
  destruct (first_friday c) as (d & rest & Hfil & Hd & Hw).
  exists y, m, d. split; [reflexivity|].
  assert (Hf : filter_exc (fun d => dt <- mk_date y m d ;; Ret (weekday dt =? 4)) (range 15 22)
               = Ret (filter (fun d => (c + d) mod 7 =? 4) (range 15 22))).
  { apply filter_exc_ret. intros x Hx.
    assert (15 <= x <= 21).
    { change (range 15 22) with [15; 16; 17; 18; 19; 20; 21] in Hx.
      simpl in Hx. lia. }
    rewrite mk_date_ret by lia. simpl. rewrite weekday_mkdate. reflexivity. }
  unfold next_expiry. rewrite Ef. rewrite Hf. rewrite Hfil. simpl.
  split; [reflexivity|].
  split; [unfold valid_date; cbn [year month day]; rewrite mk_date_ret by lia; reflexivity|].
  split; [exact Hd|]. rewrite weekday_mkdate. exact Hw.
Qed.

(** In December 9999 the following month lies in year 10000, beyond
    [MAXYEAR]: building [date(10000, 1, 15)] raises. *)
Lemma next_expiry_dec_9999 (today : date) :
  year today = MAXYEAR -> month today = 12 ->
  next_expiry today = Raise (ValueError "year 10000 is out of range").
Proof.
  intros Hy Hm. unfold next_expiry, following_month.
  rewrite Hy, Hm. reflexivity.
Qed.

End ExpiryFacts.

(** ** Claims on [next_expiry] *)
Module ExpiryClaims.
Import Controller ExpiryFacts.

(** C7 (amended): for every current date outside December 9999,
    [next_expiry()] returns the date, formatted [YYYY-MM-DD], of the
    following calendar month (January of the next year when the current month
    is December) whose day lies in 15..21 and whose weekday is Friday. *)
Theorem next_expiry_third_friday (today : date)
    (Hv : valid_date today = true)
    (Hmax : ~ (year today = MAXYEAR /\ month today = 12)) :
  exists y m d,
    next_expiry today = Ret (iso_format y m d) /\
    valid_date (mkdate y m d) = true /\
    15 <= d <= 21 /\ weekday (mkdate y m d) = 4 /\
    (month today < 12 -> y = year today /\ m = month today + 1) /\
    (month today = 12 -> y = year today + 1 /\ m = 1).
Proof.
  destruct (valid_date_bounds today Hv) as [Hy Hm].
  destruct (next_expiry_spec today Hy Hm Hmax) as (y & m & d & Ef & He & Hvd & Hd & Hw).
  exists y, m, d. repeat (split; [assumption|]).
  unfold following_month in Ef.
  destruct (month today <? 12) eqn:Elt; injection Ef as <- <-.
  - apply Z.ltb_lt in Elt. split; intros; [split; reflexivity|lia].
  - apply Z.ltb_ge in Elt. split; intros; [lia|split; reflexivity].
Qed.

Lemma next_expiry_third_friday_witness :
  valid_date (mkdate 2025 11 3) = true /\
  ~ (year (mkdate 2025 11 3) = MAXYEAR /\ month (mkdate 2025 11 3) = 12) /\
  exists y m d,
    next_expiry (mkdate 2025 11 3) = Ret (iso_format y m d) /\
    valid_date (mkdate y m d) = true /\
    15 <= d <= 21 /\ weekday (mkdate y m d) = 4 /\
    (month (mkdate 2025 11 3) < 12 -> y = year (mkdate 2025 11 3) /\ m = month (mkdate 2025 11 3) + 1) /\
    (month (mkdate 2025 11 3) = 12 -> y = year (mkdate 2025 11 3) + 1 /\ m = 1).
Proof.
  split; [reflexivity|]. split; [simpl; unfold MAXYEAR; lia|].
  apply (next_expiry_third_friday (mkdate 2025 11 3)).
  - reflexivity.
  - simpl. unfold MAXYEAR. lia.
Defined.

(** C7 fails as stated: on 9999-12-01, a valid current date, [next_expiry()]
    returns no date but raises [ValueError]. *)
Lemma next_expiry_dec_9999_no_date :
  valid_date (mkdate 9999 12 1) = true /\
  next_expiry (mkdate 9999 12 1) = Raise (ValueError "year 10000 is out of range").
Proof. split; reflexivity. Qed.

(** C10 (amended): for every current date, [next_expiry()] never fails on an
    empty list of Fridays (no [IndexError]); outside December 9999 it always
    returns a result. *)
Theorem next_expiry_no_index_error (today : date) (Hv : valid_date today = true) :
  (forall msg, next_expiry today <> Raise (IndexError msg)) /\
  (~ (year today = MAXYEAR /\ month today = 12) -> exists s, next_expiry today = Ret s).
Proof.
  destruct (valid_date_bounds today Hv) as [Hy Hm].
  assert (Hok : ~ (year today = MAXYEAR /\ month today = 12) ->
                exists s, next_expiry today = Ret s).
  { intros Hmax.
    destruct (next_expiry_spec today Hy Hm Hmax) as (y & m & d & _ & He & _).
    exists (iso_format y m d). exact He. }
  split; [|exact Hok].
  intros msg.
  destruct (Z.eq_dec (year today) MAXYEAR) as [Ey|Ey];
    [destruct (Z.eq_dec (month today) 12) as [Em|Em]|].
  - rewrite (next_expiry_dec_9999 today Ey Em). discriminate.
  - destruct Hok as [s Hs]; [intros [_ H]; contradiction|]. rewrite Hs. discriminate.
  - destruct Hok as [s Hs]; [intros [H _]; contradiction|]. rewrite Hs. discriminate.
Qed.

Lemma next_expiry_no_index_error_witness :
  valid_date (mkdate 2025 12 31) = true /\
  (forall msg, next_expiry (mkdate 2025 12 31) <> Raise (IndexError msg)).
Proof.
  split; [reflexivity|].
  apply (next_expiry_no_index_error (mkdate 2025 12 31)). reflexivity.
Defined.

(** C10 fails as stated: [next_expiry()] is not total; on 9999-12-31 it
    raises [ValueError]. *)
Lemma next_expiry_not_total_dec_9999 :
  valid_date (mkdate 9999 12 31) = true /\
  next_expiry (mkdate 9999 12 31) = Raise (ValueError "year 10000 is out of range").
Proof. split; reflexivity. Qed.

End ExpiryClaims.

(** ** Claims on the recommendation loop *)
Module WheelClaims.
Import Controller ExpiryFacts.

Lemma build_signal_shape (today : date) (st : wheel_state) (e : string) :
  next_expiry today = Ret e ->
  (w_state st = "cash" ->
     build_signal today st = Ret (Some (mkcsignal "sell_put" "AAPL" (180 # 1) e (150 # 100)))) /\
  (w_state st = "assigned" ->
     build_signal today st = Ret (Some (mkcsignal "sell_call" "AAPL" (190 # 1) e (175 # 100)))).
Proof.
  intros He. unfold build_signal. split; intros Hs; rewrite Hs; simpl; rewrite He; reflexivity.
Qed.

(** C5 (amended): on every current date outside December 9999, the
    recommendation on state [cash] is a [sell_put] signal and approving it
    saves state [waiting_assignment]; on state [assigned] it is a
    [sell_call] signal and approving it saves state [cash] with
    [shares_held = 0]; on state [waiting_assignment] there is no
    recommendation and the run exits without saving, leaving the state
    unchanged. *)
Theorem wheel_transition_table (today : date)
    (Hv : valid_date today = true)
    (Hmax : ~ (year today = MAXYEAR /\ month today = 12))
    (st : wheel_state) (post : post_outcome) :
  (w_state st = "cash" ->
     exists sg, build_signal today st = Ret (Some sg) /\ c_action sg = "sell_put" /\
       main today (Some st) "y" post
       = Ret (Submitted (send_signal post)
                        (mkwheel "waiting_assignment" (shares_held st) (Some sg)))) /\
  (w_state st = "assigned" ->
     exists sg, build_signal today st = Ret (Some sg) /\ c_action sg = "sell_call" /\
       main today (Some st) "y" post
       = Ret (Submitted (send_signal post) (mkwheel "cash" 0 (Some sg)))) /\
  (w_state st = "waiting_assignment" ->
     build_signal today st = Ret None /\
     forall answer, main today (Some st) answer post = Ret ExitUnknownState
                    /\ saved_state (main today (Some st) answer post) = None).
Proof.
  destruct (valid_date_bounds today Hv) as [Hy Hm].
  destruct (next_expiry_spec today Hy Hm Hmax) as (y & m & d & _ & He & _).
  destruct (build_signal_shape today st _ He) as [Hcash Hassigned].
  split; [|split].
  - intros Hs. eexists. split; [exact (Hcash Hs)|]. split; [reflexivity|].
    unfold main, load_state. rewrite (Hcash Hs). reflexivity.
  - intros Hs. eexists. split; [exact (Hassigned Hs)|]. split; [reflexivity|].
    unfold main, load_state. rewrite (Hassigned Hs). reflexivity.
  - intros Hs.
    assert (Hn : build_signal today st = Ret None)
      by (unfold build_signal; rewrite Hs; reflexivity).
    split; [exact Hn|]. intros answer.
    unfold main, load_state. rewrite Hn. split; reflexivity.
Qed.

Lemma wheel_transition_table_witness :
  valid_date (mkdate 2025 11 3) = true /\
  ~ (year (mkdate 2025 11 3) = MAXYEAR /\ month (mkdate 2025 11 3) = 12) /\
  (w_state (mkwheel "cash" 0 None) = "cash" ->
     exists sg, build_signal (mkdate 2025 11 3) (mkwheel "cash" 0 None) = Ret (Some sg) /\
       c_action sg = "sell_put" /\
       main (mkdate 2025 11 3) (Some (mkwheel "cash" 0 None)) "y" (PostResponse 200 (Ret "ok"))
       = Ret (Submitted (send_signal (PostResponse 200 (Ret "ok")))
                        (mkwheel "waiting_assignment" 0 (Some sg)))).
Proof.
  split; [reflexivity|]. split; [simpl; unfold MAXYEAR; lia|].
  apply (wheel_transition_table (mkdate 2025 11 3)).
  - reflexivity.
  - simpl. unfold MAXYEAR. lia.
Defined.

(** C5 fails as stated: on 9999-12-01 the recommendation on state [cash]
    is no [sell_put] signal; computing its expiry raises [ValueError]. *)
Lemma wheel_cash_dec_9999_no_signal :
  valid_date (mkdate 9999 12 1) = true /\
  build_signal (mkdate 9999 12 1) (mkwheel "cash" 0 None)
  = Raise (ValueError "year 10000 is out of range").
Proof. split; reflexivity. Qed.

(** C6: the state saved by a run does not depend on the outcome of the
    webhook submission (response, error response or exception). *)
Theorem saved_state_independent_of_submission (today : date) (file : option wheel_state)
    (answer : string) (o1 o2 : post_outcome) :
  saved_state (main today file answer o1) = saved_state (main today file answer o2).
Proof.
  unfold main.
  destruct (build_signal today (load_state file)) as [[signal|]|e]; simpl; [|reflexivity|reflexivity].
  destruct (String.eqb (PyStr.lower (PyStr.strip answer)) "y"); reflexivity.
Qed.

End WheelClaims.

(** ** Validation and the webhook pipeline *)
Module PipelineFacts.
Import Models Pipeline.

Lemma validate_fields (today : date) (p : payload) (s : WebhookSignal) :
  validate today p = Valid s ->
  validate_action (p_action p) = Ret (action s) /\
  validate_symbol (p_symbol p) = Ret (symbol s) /\
  validate_strike (p_strike p) = Ret (strike s) /\
  validate_expiry today (p_expiry p) = Ret (expiry s) /\
  validate_premium (p_premium p) = Ret (premium s) /\
  validate_quantity (p_quantity p) = Ret (quantity s).
Proof.
  unfold validate.
  destruct (validate_action (p_action p)); [|discriminate].
  destruct (validate_symbol (p_symbol p)); [|discriminate].
  destruct (validate_strike (p_strike p)); [|discriminate].
  destruct (validate_expiry today (p_expiry p)); [|discriminate].
  destruct (validate_premium (p_premium p)); [|discriminate].
  destruct (validate_quantity (p_quantity p)); [|discriminate].
  intros H. injection H as <-. simpl. tauto.
Qed.

Lemma validate_action_allowed (v a : string) :
  validate_action v = Ret a -> a = "sell_put" \/ a = "sell_call".
Proof.
  unfold validate_action, PyStr.str_in. simpl.
  destruct (String.eqb (PyStr.lower v) "sell_put") eqn:E1;
    [|destruct (String.eqb (PyStr.lower v) "sell_call") eqn:E2]; simpl;
    intros H; try discriminate; injection H as <-.
  - left. apply String.eqb_eq. exact E1.
  - right. apply String.eqb_eq. exact E2.
Qed.

Lemma valid_action (today : date) (p : payload) (s : WebhookSignal) :
  validate today p = Valid s -> action s = "sell_put" \/ action s = "sell_call".
Proof.
  intros H. apply (validate_action_allowed (p_action p)).
  apply (validate_fields today p s H).
Qed.

(** The row a webhook call appends always comes from a validated signal. *)
Lemma webhook_appends_only_validated (today : date) (E : env) (p : payload)
    (db : list db_record) (rec : db_record) :
  In rec (snd (webhook today E p db)) ->
  In rec db \/
  exists s, validate today p = Valid s /\
    r_action rec = action s /\ r_symbol rec = symbol s /\ r_strike rec = strike s /\
    r_expiry rec = expiry s /\ r_premium rec = premium s /\ r_quantity rec = quantity s.
Proof.
  unfold webhook.
  destruct (validate today p) as [s|errs] eqn:Hv; [|simpl; tauto].
  destruct (valid_action today p s Hv) as [Ha|Ha];
    unfold process_webhook, process_sell_put, process_sell_call, process_sell,
           place_options_order;
    rewrite Ha; simpl;
    destruct (alpaca_client E); simpl;
    intros Hin; apply in_app_or in Hin; destruct Hin as [Hin|[<-|[]]]; auto;
    right; exists s; rewrite <- Ha; simpl; repeat split; reflexivity.
Qed.

End PipelineFacts.

(** ** Claims on validation and the webhook pipeline *)
Module PipelineClaims.
Import Models Pipeline PipelineFacts.

(** C3: a body that fails validation is answered with 422 and its errors
    before the handler runs: the table is left as it was, so no row is
    created for it. *)
Theorem invalid_payload_not_persisted (today : date) (E : env) (p : payload)
    (db : list db_record) (errs : list (string * string))
    (Hinv : validate today p = Invalid errs) :
  webhook today E p db = (Resp422 errs, db).
Proof. unfold webhook. rewrite Hinv. reflexivity. Qed.

Lemma invalid_payload_not_persisted_witness :
  validate (mkdate 2024 7 1) (mkpayload "buy" "AAPL" (180 # 1) "2024-07-19" (150 # 100) None)
  = Invalid [("action", "Value error, Action must be one of: sell_put, sell_call")] /\
  webhook (mkdate 2024 7 1) (mkenv true None 0)
          (mkpayload "buy" "AAPL" (180 # 1) "2024-07-19" (150 # 100) None) []
  = (Resp422 [("action", "Value error, Action must be one of: sell_put, sell_call")], []).
Proof.
  split; [reflexivity|].
  apply invalid_payload_not_persisted. reflexivity.
Defined.

(** C4 (amended): with no brokerage client configured, a valid signal is
    answered with a top-level success, and its row ends with status
    [no_broker] and error message "Alpaca client not available". *)
Theorem no_broker_degraded_success (today : date) (E : env) (p : payload)
    (db : list db_record) (s : WebhookSignal)
    (Hval : validate today p = Valid s) (Hnb : alpaca_client E = false) :
  exists msg id result rec,
    webhook today E p db = (Resp200 "success" msg id s result, app db [rec]) /\
    r_status rec = "no_broker" /\
    error_message rec = Some "Alpaca client not available" /\
    alpaca_order result = None.
Proof.
  unfold webhook. rewrite Hval.
  destruct (valid_action today p s Hval) as [Ha|Ha];
    unfold process_webhook, process_sell_put, process_sell_call, process_sell;
    rewrite Ha; simpl; rewrite Hnb;
    do 4 eexists; repeat split; reflexivity.
Qed.

Lemma no_broker_degraded_success_witness :
  validate (mkdate 2024 7 1) (mkpayload "sell_put" "AAPL" (180 # 1) "2024-07-19" (150 # 100) None)
  = Valid (mksignal "sell_put" "AAPL" (180 # 1) "2024-07-19" (3 # 2) (Some 1)) /\
  exists msg id result rec,
    webhook (mkdate 2024 7 1) (mkenv false None 0)
            (mkpayload "sell_put" "AAPL" (180 # 1) "2024-07-19" (150 # 100) None) []
    = (Resp200 "success" msg id (mksignal "sell_put" "AAPL" (180 # 1) "2024-07-19" (3 # 2) (Some 1))
               result, app [] [rec]) /\
    r_status rec = "no_broker" /\
    error_message rec = Some "Alpaca client not available" /\
    alpaca_order result = None.
Proof.
  split; [reflexivity|].
  apply no_broker_degraded_success; reflexivity.
Defined.

(** C4 fails as stated: without a broker the row's error message is
    "Alpaca client not available", not "broker unavailable". *)
Lemma no_broker_message_differs :
  map error_message
      (snd (webhook (mkdate 2024 7 1) (mkenv false None 0)
                    (mkpayload "sell_put" "AAPL" (180 # 1) "2024-07-19" (150 # 100) None) []))
  = [Some "Alpaca client not available"] /\
  map error_message
      (snd (webhook (mkdate 2024 7 1) (mkenv false None 0)
                    (mkpayload "sell_put" "AAPL" (180 # 1) "2024-07-19" (150 # 100) None) []))
  <> [Some "broker unavailable"].
Proof. split; [reflexivity|]. vm_compute. discriminate. Qed.

(** C1 (amended): no order is ever sent to the brokerage. With a
    brokerage client configured, [place_options_order] only builds and logs
    a simulated order, so the brokerage step cannot fail: every valid signal
    is committed with status [processed], [processed_at] set and no error
    message, and the caller gets a top-level success whose result carries
    the simulated order. *)
Theorem configured_broker_records_processed (today : date) (E : env) (p : payload)
    (db : list db_record) (s : WebhookSignal)
    (Hval : validate today p = Valid s) (Hc : alpaca_client E = true) :
  exists msg id result rec od,
    webhook today E p db = (Resp200 "success" msg id s result, app db [rec]) /\
    alpaca_order result = Some (PSimulated od) /\
    r_status rec = "processed" /\ processed_at rec <> None /\ error_message rec = None.
Proof.
  unfold webhook. rewrite Hval.
  destruct (valid_action today p s Hval) as [Ha|Ha];
    unfold process_webhook, process_sell_put, process_sell_call, process_sell,
           place_options_order;
    rewrite Ha; simpl; rewrite Hc; simpl;
    do 5 eexists; (split; [reflexivity|]); repeat split; discriminate.
Qed.

Lemma configured_broker_records_processed_witness :
  validate (mkdate 2024 7 1) (mkpayload "sell_put" "AAPL" (180 # 1) "2024-07-19" (150 # 100) None)
  = Valid (mksignal "sell_put" "AAPL" (180 # 1) "2024-07-19" (3 # 2) (Some 1)) /\
  exists msg id result rec od,
    webhook (mkdate 2024 7 1) (mkenv true None 0)
            (mkpayload "sell_put" "AAPL" (180 # 1) "2024-07-19" (150 # 100) None) []
    = (Resp200 "success" msg id (mksignal "sell_put" "AAPL" (180 # 1) "2024-07-19" (3 # 2) (Some 1))
               result, app [] [rec]) /\
    alpaca_order result = Some (PSimulated od) /\
    r_status rec = "processed" /\ processed_at rec <> None /\ error_message rec = None.
Proof.
  split; [reflexivity|].
  apply configured_broker_records_processed; reflexivity.
Defined.

(** C1 fails as stated: with a client configured and a brokerage that
    would refuse the order, the row is still [processed] with no error
    message, since the order is never sent. *)
Lemma broker_failure_not_recorded :
  map r_status
      (snd (webhook (mkdate 2024 7 1)
                    (mkenv true (Some (OtherError "options trading is not enabled")) 0)
                    (mkpayload "sell_put" "AAPL" (180 # 1) "2024-07-19" (150 # 100) None) []))
  = ["processed"] /\
  map error_message
      (snd (webhook (mkdate 2024 7 1)
                    (mkenv true (Some (OtherError "options trading is not enabled")) 0)
                    (mkpayload "sell_put" "AAPL" (180 # 1) "2024-07-19" (150 # 100) None) []))
  = [None].
Proof. split; reflexivity. Qed.

(** C2 (amended): no OCC-style instrument id is built. With a brokerage
    client configured and the placement succeeding, the order details carry
    the validated underlying symbol unchanged, the option type ["put"] or
    ["call"] as a separate field, and the row's [alpaca_order_id] is that
    underlying symbol. *)
Theorem order_symbol_is_underlying (today : date) (E : env) (p : payload)
    (db : list db_record) (s : WebhookSignal)
    (Hval : validate today p = Valid s) (Hc : alpaca_client E = true) :
  exists msg id result rec od,
    webhook today E p db = (Resp200 "success" msg id s result, app db [rec]) /\
    alpaca_order result = Some (PSimulated od) /\
    od_symbol od = symbol s /\ od_strike od = strike s /\ od_expiry od = expiry s /\
    od_option_type od = (if String.eqb (action s) "sell_put" then "put" else "call") /\
    alpaca_order_id rec = Some (symbol s).
Proof.
  unfold webhook. rewrite Hval.
  destruct (valid_action today p s Hval) as [Ha|Ha];
    unfold process_webhook, process_sell_put, process_sell_call, process_sell,
           place_options_order;
    rewrite Ha; simpl; rewrite Hc; simpl;
    do 5 eexists; repeat split; reflexivity.
Qed.

Lemma order_symbol_is_underlying_witness :
  validate (mkdate 2024 7 1) (mkpayload "sell_put" "AAPL" (180 # 1) "2024-07-19" (150 # 100) None)
  = Valid (mksignal "sell_put" "AAPL" (180 # 1) "2024-07-19" (3 # 2) (Some 1)) /\
  exists msg id result rec od,
    webhook (mkdate 2024 7 1) (mkenv true None 0)
            (mkpayload "sell_put" "AAPL" (180 # 1) "2024-07-19" (150 # 100) None) []
    = (Resp200 "success" msg id (mksignal "sell_put" "AAPL" (180 # 1) "2024-07-19" (3 # 2) (Some 1))
               result, app [] [rec]) /\
    alpaca_order result = Some (PSimulated od) /\
    od_symbol od = "AAPL" /\ od_strike od = (180 # 1) /\ od_expiry od = "2024-07-19" /\
    od_option_type od = (if String.eqb "sell_put" "sell_put" then "put" else "call") /\
    alpaca_order_id rec = Some "AAPL".
Proof.
  split; [reflexivity|].
  apply (order_symbol_is_underlying (mkdate 2024 7 1) (mkenv true None 0)
           (mkpayload "sell_put" "AAPL" (180 # 1) "2024-07-19" (150 # 100) None) []
           (mksignal "sell_put" "AAPL" (180 # 1) "2024-07-19" (3 # 2) (Some 1)));
    reflexivity.
Defined.

(** C2 fails as stated: for AAPL, 2024-07-19, sell_put, strike 180.0 the
    order is placed and recorded under "AAPL", not "AAPL240719P00180000". *)
Lemma order_id_not_occ :
  map alpaca_order_id
      (snd (webhook (mkdate 2024 7 1) (mkenv true None 0)
                    (mkpayload "sell_put" "AAPL" (180 # 1) "2024-07-19" (150 # 100) None) []))
  = [Some "AAPL"] /\
  map alpaca_order_id
      (snd (webhook (mkdate 2024 7 1) (mkenv true None 0)
                    (mkpayload "sell_put" "AAPL" (180 # 1) "2024-07-19" (150 # 100) None) []))
  <> [Some "AAPL240719P00180000"].
Proof. split; [reflexivity|]. vm_compute. discriminate. Qed.

End PipelineClaims.

(** ** Claims on the validators *)
Module ValidationClaims.
Import Models PipelineFacts.

(** C8: a body with [premium = 1000.01] is rejected with the premium error,
    whatever its other fields; a body valid with some premium stays valid
    with [premium = 1000.00], which is stored as [1000]. *)
Theorem premium_upper_bound_inclusive (today : date) (p : payload) :
  (exists errs,
     validate today (with_premium p (100001 # 100)) = Invalid errs /\
     In ("premium", "Value error, Premium seems unreasonably high") errs) /\
  (forall s, validate today p = Valid s ->
     validate today (with_premium p (1000 # 1))
     = Valid (mksignal (action s) (symbol s) (strike s) (expiry s) (1000 # 1) (quantity s))).
Proof.
  split.
  - unfold validate, with_premium.
    cbn [p_action p_symbol p_strike p_expiry p_premium p_quantity].
    assert (Hp : validate_premium (100001 # 100)
                 = Raise (ValueError "Premium seems unreasonably high")) by reflexivity.
    rewrite Hp.
    destruct (validate_action (p_action p)), (validate_symbol (p_symbol p)),
             (validate_strike (p_strike p)), (validate_expiry today (p_expiry p));
      eexists; (split; [reflexivity|]);
      do 4 (apply in_or_app; right); apply in_or_app; left; left; reflexivity.
  - intros s Hval.
    destruct (validate_fields today p s Hval) as (Ha & Hs & Hk & He & _ & Hq).
    unfold validate, with_premium.
    cbn [p_action p_symbol p_strike p_expiry p_premium p_quantity].
    rewrite Ha, Hs, Hk, He, Hq. reflexivity.
Qed.

Lemma premium_upper_bound_inclusive_witness :
  validate (mkdate 2024 7 1) (mkpayload "sell_put" "AAPL" (180 # 1) "2024-07-19" (150 # 100) None)
  = Valid (mksignal "sell_put" "AAPL" (180 # 1) "2024-07-19" (3 # 2) (Some 1)) /\
  validate (mkdate 2024 7 1)
           (with_premium (mkpayload "sell_put" "AAPL" (180 # 1) "2024-07-19" (150 # 100) None)
                         (1000 # 1))
  = Valid (mksignal "sell_put" "AAPL" (180 # 1) "2024-07-19" (1000 # 1) (Some 1)).
Proof.
  split; [reflexivity|].
  apply (proj2 (premium_upper_bound_inclusive (mkdate 2024 7 1)
                  (mkpayload "sell_put" "AAPL" (180 # 1) "2024-07-19" (150 # 100) None))
                (mksignal "sell_put" "AAPL" (180 # 1) "2024-07-19" (3 # 2) (Some 1))).
  reflexivity.
Defined.

(** C9 (code's behaviour): a strike of 0.001 passes [gt=0] and the
    validator's own [v <= 0] check, then [round(v, 2)] stores [0.0];
    re-validating that output is rejected with "Input should be greater
    than 0". *)
Lemma revalidation_rejects_rounded_strike :
  validate (mkdate 2024 7 1) (mkpayload "sell_put" "AAPL" (1 # 1000) "2024-07-19" (150 # 100) None)
  = Valid (mksignal "sell_put" "AAPL" 0 "2024-07-19" (3 # 2) (Some 1)) /\
  validate (mkdate 2024 7 1) (raw_form (mksignal "sell_put" "AAPL" 0 "2024-07-19" (3 # 2) (Some 1)))
  = Invalid [("strike", "Input should be greater than 0")].
Proof. split; reflexivity. Qed.

End ValidationClaims.

(** * Further properties of the code *)

(** ** Case maps and the symbol pattern *)
Module StrFacts.
Import PyStr Models.

Lemma ascii_lower_upper (c : ascii) : ascii_lower (ascii_upper c) = ascii_lower c.
Proof. destruct c as [[] [] [] [] [] [] [] []]; reflexivity. Qed.
Lemma ascii_lower_lower (c : ascii) : ascii_lower (ascii_lower c) = ascii_lower c.
Proof. destruct c as [[] [] [] [] [] [] [] []]; reflexivity. Qed.
Lemma ascii_upper_upper (c : ascii) : ascii_upper (ascii_upper c) = ascii_upper c.
Proof. destruct c as [[] [] [] [] [] [] [] []]; reflexivity. Qed.
Lemma is_alpha_upper (c : ascii) : is_alpha (ascii_upper c) = is_alpha c.
Proof. destruct c as [[] [] [] [] [] [] [] []]; reflexivity. Qed.
Lemma newline_upper (c : ascii) : Ascii.eqb (ascii_upper c) "010" = Ascii.eqb c "010".
Proof. destruct c as [[] [] [] [] [] [] [] []]; reflexivity. Qed.

Lemma str_map_compose (f g : ascii -> ascii) (v : string) :
  str_map f (str_map g v) = str_map (fun c => f (g c)) v.
Proof. induction v as [|c v IH]; simpl; [reflexivity|now rewrite IH]. Qed.

Lemma str_map_ext (f g : ascii -> ascii) (v : string) :
  (forall c, f c = g c) -> str_map f v = str_map g v.
Proof. intros H. induction v as [|c v IH]; simpl; [reflexivity|now rewrite H, IH]. Qed.

Lemma lower_upper (v : string) : lower (upper v) = lower v.
Proof. unfold lower, upper. rewrite str_map_compose. apply str_map_ext, ascii_lower_upper. Qed.
Lemma lower_lower (v : string) : lower (lower v) = lower v.
Proof. unfold lower. rewrite str_map_compose. apply str_map_ext, ascii_lower_lower. Qed.
Lemma upper_upper (v : string) : upper (upper v) = upper v.
Proof. unfold upper. rewrite str_map_compose. apply str_map_ext, ascii_upper_upper. Qed.

Lemma length_upper (v : string) : String.length (upper v) = String.length v.
Proof. unfold upper. induction v as [|c v IH]; simpl; [reflexivity|now rewrite IH]. Qed.

Lemma all_alpha_upper (v : string) : all_alpha (upper v) = all_alpha v.
Proof.
  unfold upper. induction v as [|c v IH]; simpl; [reflexivity|].
  now rewrite is_alpha_upper, IH.
Qed.

Lemma alpha_1_10_upper (v : string) : alpha_1_10 (upper v) = alpha_1_10 v.
Proof. unfold alpha_1_10. now rewrite length_upper, all_alpha_upper. Qed.

Lemma upper_app (a b : string) : upper (a ++ b) = upper a ++ upper b.
Proof. unfold upper. induction a as [|c a IH]; simpl; [reflexivity|]. now rewrite IH. Qed.

Lemma drop_final_newline_cons (c : ascii) (t : string) :
  t <> EmptyString ->
  drop_final_newline (String c t) = option_map (String c) (drop_final_newline t).
Proof. intros H. destruct t; [contradiction|reflexivity]. Qed.

Lemma drop_final_newline_upper (v : string) :
  drop_final_newline (upper v) = option_map upper (drop_final_newline v).
Proof.
  induction v as [|c v IH]; [reflexivity|].
  destruct v as [|c' v'].
  - simpl. rewrite newline_upper. destruct (Ascii.eqb c "010"); reflexivity.
  - change (upper (String c (String c' v'))) with (String (ascii_upper c) (upper (String c' v'))).
    rewrite !drop_final_newline_cons by (simpl; discriminate).
    rewrite IH. destruct (drop_final_newline (String c' v')); reflexivity.
Qed.

Lemma symbol_re_match_upper (v : string) : symbol_re_match (upper v) = symbol_re_match v.
Proof.
  unfold symbol_re_match. rewrite alpha_1_10_upper, drop_final_newline_upper.
  destruct (drop_final_newline v); simpl; [now rewrite alpha_1_10_upper|reflexivity].
Qed.

Lemma drop_final_newline_app (c : string) :
  drop_final_newline (c ++ String "010" EmptyString) = Some c.
Proof.
  induction c as [|a c IH]; [reflexivity|].
  cbn [String.append]. rewrite drop_final_newline_cons by (destruct c; discriminate).
  rewrite IH. reflexivity.
Qed.

Lemma length_app (a b : string) : String.length (a ++ b) = (String.length a + String.length b)%nat.
Proof. induction a as [|c a IH]; simpl; [reflexivity|now rewrite IH]. Qed.

Lemma validate_symbol_ret (v s : string) :
  validate_symbol v = Ret s -> s = upper v /\ validate_symbol s = Ret s.
Proof.
  unfold validate_symbol.
  destruct (String.length v <? 1)%nat eqn:E1; [discriminate|].
  destruct (10 <? String.length v)%nat eqn:E2; [discriminate|].
  destruct (symbol_re_match v) eqn:E3; [|discriminate].
  intros H. simpl negb in H. injection H as <-. split; [reflexivity|].
  rewrite length_upper, E1, E2, symbol_re_match_upper, E3, upper_upper. reflexivity.
Qed.

Lemma validate_action_ret (v a : string) :
  validate_action v = Ret a -> a = lower v /\ validate_action a = Ret a.
Proof.
  unfold validate_action.
  destruct (str_in (lower v) ["sell_put"; "sell_call"]) eqn:E; [|discriminate].
  intros H. simpl negb in H. injection H as <-. split; [reflexivity|].
  rewrite lower_lower, E. reflexivity.
Qed.

End StrFacts.

(** ** Extras on the validators *)
Module ValidatorExtras.
Import PyStr Models StrFacts.

(** An accepted symbol is stored upper-cased, and validating the stored
    symbol again accepts it unchanged. *)
Theorem validate_symbol_idempotent (v s : string) (H : validate_symbol v = Ret s) :
  s = upper v /\ validate_symbol s = Ret s.
Proof. exact (validate_symbol_ret v s H). Qed.

Lemma validate_symbol_idempotent_witness :
  validate_symbol "aApl" = Ret "AAPL" /\ "AAPL" = upper "aApl" /\ validate_symbol "AAPL" = Ret "AAPL".
Proof.
  split; [reflexivity|]. apply validate_symbol_idempotent. reflexivity.
Defined.

(** Python's [$] also matches before a final newline: a symbol of 1 to 9
    letters followed by a newline is accepted, and stored upper-cased with
    the newline kept. *)
Theorem validate_symbol_trailing_newline (c : string)
    (Ha : all_alpha c = true) (Hl : (1 <= String.length c <= 9)%nat) :
  validate_symbol (c ++ String "010" EmptyString) = Ret (upper c ++ String "010" EmptyString).
Proof.
  unfold validate_symbol. rewrite length_app.
  change (String.length (String "010" EmptyString)) with 1%nat.
  replace (String.length c + 1 <? 1)%nat with false by (symmetry; apply Nat.ltb_ge; lia).
  replace (10 <? String.length c + 1)%nat with false by (symmetry; apply Nat.ltb_ge; lia).
  unfold symbol_re_match. rewrite drop_final_newline_app.
  replace (alpha_1_10 c) with true
    by (unfold alpha_1_10; rewrite Ha; symmetry;
        apply andb_true_intro; split; [apply andb_true_intro; split|]; auto;
        apply Nat.leb_le; lia).
  rewrite orb_true_r. rewrite upper_app. reflexivity.
Qed.

Lemma validate_symbol_trailing_newline_witness :
  validate_symbol ("aapl" ++ String "010" EmptyString) = Ret ("AAPL" ++ String "010" EmptyString).
Proof. apply (validate_symbol_trailing_newline "aapl"); [reflexivity|simpl; lia]. Defined.

End ValidatorExtras.

(** ** Rounding to cents *)
Module RoundFacts.
Import Models.

(** [round_half_even q] is within one half of [q]. *)
Lemma round_half_even_near (q : Q) :
  2 * Qnum q - Zpos (Qden q) <= 2 * round_half_even q * Zpos (Qden q) <= 2 * Qnum q + Zpos (Qden q).
Proof.
  unfold round_half_even.
  set (n := Qnum q). set (d := Zpos (Qden q)).
  assert (Hd : 0 < d) by reflexivity.
  pose proof (Z.div_mod n d ltac:(lia)) as Hdm.
  pose proof (Z.mod_pos_bound n d Hd) as Hb.
  set (fl := n / d) in *. set (r := n mod d) in *.
  replace (n - fl * d) with r by lia.
  destruct (Z.compare_spec (2 * r) d) as [Heq|Hlt|Hgt];
    [destruct (Z.even fl)|..]; nia.
Qed.

(** On an integral value it is exact. *)
Lemma round_half_even_int (q : Q) (z : Z) :
  Qnum q = z * Zpos (Qden q) -> round_half_even q = z.
Proof.
  intros H. unfold round_half_even. rewrite H.
  rewrite Z.div_mul by discriminate.
  replace (z * Zpos (Qden q) - z * Zpos (Qden q)) with 0 by ring.
  reflexivity.
Qed.

Local Open Scope Q_scope.

Lemma round2_eq (v : Q) : round2 v == round_half_even (v * (100 # 1)) # 100.
Proof. unfold round2. apply Qred_correct. Qed.

(** [round(v, 2)] of a value in [0, N] stays in [0, N]. *)
Lemma round2_bounds (v : Q) (N : Z) :
  0 <= v -> v <= inject_Z N -> 0 <= round2 v /\ round2 v <= inject_Z N.
Proof.
  intros H0 HN. rewrite round2_eq.
  pose proof (round_half_even_near (v * (100 # 1))) as Hn.
  destruct v as [n d].
  set (z := round_half_even _) in *.
  change (Qnum ((n # d) * (100 # 1))) with (n * 100)%Z in Hn.
  change (Qden ((n # d) * (100 # 1))) with (d * 1)%positive in Hn.
  unfold Qle, inject_Z in *; cbn [Qnum Qden] in *.
  rewrite !Pos2Z.inj_mul in *. split; nia.
Qed.

(** Rounding twice is rounding once. *)
Lemma round2_round2 (v : Q) : round2 (round2 v) = round2 v.
Proof.
  pose proof (round2_eq v) as He.
  set (z := round_half_even (v * (100 # 1))) in *.
  set (w := round2 v) in *.
  unfold round2 at 1.
  rewrite (round_half_even_int (w * (100 # 1)) z).
  - reflexivity.
  - unfold Qeq in He. simpl in He |- *. rewrite Pos.mul_1_r. lia.
Qed.

End RoundFacts.

(** ** What the validators return *)
Module FieldFacts.
Import Models RoundFacts.
Local Open Scope Q_scope.

Lemma Qle_bool_false (a b : Q) : Qle_bool a b = false -> b < a.
Proof.
  intros H. apply Qnot_le_lt. intros Hle. apply Qle_bool_iff in Hle. congruence.
Qed.

Lemma validate_strike_spec (v k : Q) :
  validate_strike v = Ret k -> 0 < v /\ v <= inject_Z 10000 /\ k = round2 v.
Proof.
  unfold validate_strike, gt0, Qgtb, inject_Z.
  destruct (Qle_bool v 0) eqn:E0; cbn [negb bind]; [discriminate|]. rewrite E0.
  destruct (Qle_bool v (10000 # 1)) eqn:E1; cbn [negb]; [|discriminate].
  intros H. injection H as <-.
  split; [apply Qle_bool_false; exact E0|].
  split; [apply Qle_bool_iff; exact E1|reflexivity].
Qed.

Lemma validate_premium_spec (v k : Q) :
  validate_premium v = Ret k -> 0 < v /\ v <= inject_Z 1000 /\ k = round2 v.
Proof.
  unfold validate_premium, gt0, Qgtb, inject_Z.
  destruct (Qle_bool v 0) eqn:E0; cbn [negb bind]; [discriminate|]. rewrite E0.
  destruct (Qle_bool v (1000 # 1)) eqn:E1; cbn [negb]; [|discriminate].
  intros H. injection H as <-.
  split; [apply Qle_bool_false; exact E0|].
  split; [apply Qle_bool_iff; exact E1|reflexivity].
Qed.

Lemma Qle_bool_lt (a b : Q) : b < a -> Qle_bool a b = false.
Proof.
  intros H. destruct (Qle_bool a b) eqn:E; [|reflexivity].
  apply Qle_bool_iff in E. exfalso. apply (Qlt_not_le b a H E).
Qed.

Lemma validate_strike_stable (v k : Q) :
  validate_strike v = Ret k -> 0 < k -> validate_strike k = Ret k.
Proof.
  intros H Hk. destruct (validate_strike_spec v k H) as (H0 & H1 & ->).
  destruct (round2_bounds v 10000 (Qlt_le_weak _ _ H0) H1) as [_ Hb].
  unfold validate_strike, gt0, Qgtb, inject_Z.
  change (inject_Z 10000) with (10000 # 1) in Hb.
  rewrite (Qle_bool_lt _ _ Hk). cbn [negb bind]. rewrite (Qle_bool_lt _ _ Hk).
  rewrite (proj2 (Qle_bool_iff _ _) Hb). cbn [negb].
  now rewrite round2_round2.
Qed.

Lemma validate_premium_stable (v k : Q) :
  validate_premium v = Ret k -> 0 < k -> validate_premium k = Ret k.
Proof.
  intros H Hk. destruct (validate_premium_spec v k H) as (H0 & H1 & ->).
  destruct (round2_bounds v 1000 (Qlt_le_weak _ _ H0) H1) as [_ Hb].
  unfold validate_premium, gt0, Qgtb, inject_Z.
  change (inject_Z 1000) with (1000 # 1) in Hb.
  rewrite (Qle_bool_lt _ _ Hk). cbn [negb bind]. rewrite (Qle_bool_lt _ _ Hk).
  rewrite (proj2 (Qle_bool_iff _ _) Hb). cbn [negb].
  now rewrite round2_round2.
Qed.

Lemma validate_expiry_ret (today : date) (v r : string) :
  validate_expiry today v = Ret r -> r = v.
Proof.
  unfold validate_expiry.
  destruct (strptime_ymd v) as [dt|e]; cbn [bind].
  - destruct (date_le dt today); [discriminate|]. intros H. injection H as <-. reflexivity.
  - destruct e as [m|m|m]; [destruct (PyStr.contains _ m)|..]; discriminate.
Qed.

Lemma validate_quantity_stable (q : option (option Z)) (r : option Z) :
  validate_quantity q = Ret r -> validate_quantity (Some r) = Ret r.
Proof.
  destruct q as [[z|]|]; cbn [validate_quantity].
  - destruct (0 <? z)%Z eqn:E; [|discriminate]. intros H. injection H as <-.
    cbn [validate_quantity]. rewrite E. reflexivity.
  - intros H. injection H as <-. reflexivity.
  - intros H. injection H as <-. reflexivity.
Qed.

End FieldFacts.

(** ** Extras on the stored prices and on re-validation *)
Module PriceExtras.
Import Models Pipeline PipelineFacts RoundFacts FieldFacts.
Local Open Scope Q_scope.

(** A validated strike lies in [0, 10000] and a validated premium in
    [0, 1000]; zero is included, since the positivity check is made on the
    submitted value, before rounding to two decimals. *)
Theorem validated_prices_rounded (today : date) (p : payload) (s : WebhookSignal)
    (H : validate today p = Valid s) :
  (0 <= strike s /\ strike s <= inject_Z 10000) /\
  (0 <= premium s /\ premium s <= inject_Z 1000).
Proof.
  destruct (validate_fields today p s H) as (_ & _ & Hk & _ & Hp & _).
  destruct (validate_strike_spec _ _ Hk) as (Hk0 & Hk1 & ->).
  destruct (validate_premium_spec _ _ Hp) as (Hp0 & Hp1 & ->).
  split; apply round2_bounds; auto using Qlt_le_weak.
Qed.

Lemma validated_prices_rounded_witness :
  validate (mkdate 2024 7 1)
    (mkpayload "sell_put" "AAPL" (180005 # 1000) "2024-07-19" (1 # 1000) None)
  = Valid (mksignal "sell_put" "AAPL" (180 # 1) "2024-07-19" 0 (Some 1%Z)) /\ 0 <= premium (mksignal "sell_put" "AAPL" (180 # 1) "2024-07-19" 0 (Some 1%Z)).
Proof.
  split; [reflexivity|].
  apply (validated_prices_rounded (mkdate 2024 7 1)
           (mkpayload "sell_put" "AAPL" (180005 # 1000) "2024-07-19" (1 # 1000) None)).
  reflexivity.
Defined.

(** The serialised form of a validated signal ([model_dump()]) validates
    again to the same signal, as long as rounding left the strike and the
    premium positive. *)
Theorem model_dump_revalidates (today : date) (p : payload) (s : WebhookSignal)
    (H : validate today p = Valid s) (Hk : 0 < strike s) (Hp : 0 < premium s) :
  validate today (raw_form s) = Valid s.
Proof.
  destruct (validate_fields today p s H) as (Ha & Hs & Hkk & He & Hpp & Hq).
  unfold validate, raw_form. cbn [p_action p_symbol p_strike p_expiry p_premium p_quantity].
  rewrite (proj2 (StrFacts.validate_action_ret _ _ Ha)).
  rewrite (proj2 (StrFacts.validate_symbol_ret _ _ Hs)).
  rewrite (validate_strike_stable _ _ Hkk Hk).
  pose proof (validate_expiry_ret _ _ _ He) as Hee. rewrite <- Hee in He. rewrite He.
  rewrite (validate_premium_stable _ _ Hpp Hp).
  rewrite (validate_quantity_stable _ _ Hq).
  destruct s; reflexivity.
Qed.

Lemma model_dump_revalidates_witness :
  validate (mkdate 2024 7 1)
    (raw_form (mksignal "sell_put" "AAPL" (18001 # 100) "2024-07-19" (3 # 2) (Some 2%Z)))
  = Valid (mksignal "sell_put" "AAPL" (18001 # 100) "2024-07-19" (3 # 2) (Some 2%Z)).
Proof.
  apply (model_dump_revalidates (mkdate 2024 7 1)
           (mkpayload "Sell_Put" "aapl" (180012 # 1000) "2024-07-19" (15 # 10) (Some (Some 2%Z)))).
  - vm_compute. reflexivity.
  - vm_compute. reflexivity.
  - vm_compute. reflexivity.
Defined.

End PriceExtras.

(** ** Reading back the dates [next_expiry] writes *)
Module DateFacts.
Import Controller Models Aux.

Lemma in_range (lo hi x : Z) : lo <= x < hi -> In x (range lo hi).
Proof.
  intros H. unfold range. apply in_map_iff.
  exists (Z.to_nat (x - lo)). split; [lia|].
  apply in_seq. lia.
Qed.

Lemma four_digits_all : forallb four_digits (range 1000 10000) = true.
Proof. vm_compute. reflexivity. Qed.

Lemma year_digits (y : Z) : 1000 <= y <= 9999 -> four_digits y = true.
Proof.
  intros H. pose proof four_digits_all as Hall. rewrite forallb_forall in Hall.
  apply Hall, in_range. lia.
Qed.

Lemma parse_month_pad2 (m : Z) (rest : string) :
  1 <= m <= 12 -> parse_month_dash (pad2 m ++ String "-" rest) = Some (m, rest).
Proof.
  intros H.
  assert (m = 1 \/ m = 2 \/ m = 3 \/ m = 4 \/ m = 5 \/ m = 6 \/ m = 7 \/ m = 8 \/
          m = 9 \/ m = 10 \/ m = 11 \/ m = 12) as Hm by lia.
  repeat destruct Hm as [-> | Hm]; [..|subst m]; reflexivity.
Qed.

Lemma day_parses_all : forallb (day_parses pad2) (range 1 32) = true.
Proof. vm_compute. reflexivity. Qed.

Lemma parse_day_pad2 (d : Z) : 1 <= d <= 31 -> parse_day (pad2 d) = Some (d, EmptyString).
Proof.
  intros H. pose proof day_parses_all as Hall. rewrite forallb_forall in Hall.
  specialize (Hall d (in_range 1 32 d ltac:(lia))). unfold day_parses in Hall.
  destruct (parse_day (pad2 d)) as [[d' [|c r]]|]; try discriminate.
  apply Z.eqb_eq in Hall. subst. reflexivity.
Qed.

Lemma day_parses_dec_all : forallb (day_parses z_to_dec) (range 1 32) = true.
Proof. vm_compute. reflexivity. Qed.

Lemma parse_day_dec (d : Z) : 1 <= d <= 31 -> parse_day (z_to_dec d) = Some (d, EmptyString).
Proof.
  intros H. pose proof day_parses_dec_all as Hall. rewrite forallb_forall in Hall.
  specialize (Hall d (in_range 1 32 d ltac:(lia))). unfold day_parses in Hall.
  destruct (parse_day (z_to_dec d)) as [[d' [|c r]]|]; try discriminate.
  apply Z.eqb_eq in Hall. subst. reflexivity.
Qed.

Lemma parse_month_dec (m : Z) (rest : string) :
  1 <= m <= 12 -> parse_month_dash (z_to_dec m ++ String "-" rest) = Some (m, rest).
Proof.
  intros H.
  assert (m = 1 \/ m = 2 \/ m = 3 \/ m = 4 \/ m = 5 \/ m = 6 \/ m = 7 \/ m = 8 \/
          m = 9 \/ m = 10 \/ m = 11 \/ m = 12) as Hm by lia.
  repeat destruct Hm as [-> | Hm]; [..|subst m]; destruct rest; reflexivity.
Qed.

Lemma days_in_month_le_31 (y m : Z) : days_in_month y m <= 31.
Proof.
  unfold days_in_month.
  destruct (m =? 2); [destruct (is_leap y)|destruct (_ || _)]; lia.
Qed.

Lemma valid_date_mk (y m d : Z) :
  valid_date (mkdate y m d) = true ->
  mk_date y m d = Ret (mkdate y m d) /\ 1 <= y <= 9999 /\ 1 <= m <= 12 /\ 1 <= d <= 31.
Proof.
  unfold valid_date, mk_date, MINYEAR, MAXYEAR. cbn [year month day].
  pose proof (days_in_month_le_31 y m).
  destruct ((1 <=? y) && (y <=? 9999)) eqn:Ey; cbn [negb]; [|discriminate].
  destruct ((1 <=? m) && (m <=? 12)) eqn:Em; cbn [negb]; [|discriminate].
  destruct ((1 <=? d) && (d <=? days_in_month y m)) eqn:Ed; cbn [negb]; [|discriminate].
  intros _. apply andb_true_iff in Ey, Em, Ed.
  destruct Ey as [Ey1 Ey2], Em as [Em1 Em2], Ed as [Ed1 Ed2].
  apply Z.leb_le in Ey1, Ey2, Em1, Em2, Ed1, Ed2. repeat split; lia.
Qed.

(** [strptime(f"{y}-{m:02d}-{d:02d}", '%Y-%m-%d')] gives back the date. *)
Lemma strptime_iso (y m d : Z) :
  valid_date (mkdate y m d) = true -> 1000 <= y ->
  strptime_ymd (iso_format y m d) = Ret (mkdate y m d).
Proof.
  intros Hv Hy. destruct (valid_date_mk y m d Hv) as (Hmk & Hy' & Hm & Hd).
  pose proof (year_digits y ltac:(lia)) as Hf. unfold four_digits in Hf.
  unfold iso_format.
  destruct (z_to_dec y) as [|a [|b [|c [|e [|x r]]]]]; try discriminate.
  cbn [String.append strptime_ymd].
  apply andb_true_iff in Hf. destruct Hf as [Hf Heq]. rewrite Hf.
  change (is_char "-" 45) with true. cbn [andb].
  rewrite parse_month_pad2 by exact Hm. rewrite parse_day_pad2 by exact Hd.
  apply Z.eqb_eq in Heq. rewrite Heq. exact Hmk.
Qed.

(** The same without the zero padding. *)
Lemma strptime_unpadded (y m d : Z) :
  valid_date (mkdate y m d) = true -> 1000 <= y ->
  strptime_ymd (z_to_dec y ++ "-" ++ z_to_dec m ++ "-" ++ z_to_dec d) = Ret (mkdate y m d).
Proof.
  intros Hv Hy. destruct (valid_date_mk y m d Hv) as (Hmk & Hy' & Hm & Hd).
  pose proof (year_digits y ltac:(lia)) as Hf. unfold four_digits in Hf.
  destruct (z_to_dec y) as [|a [|b [|c [|e [|x r]]]]]; try discriminate.
  cbn [String.append strptime_ymd].
  apply andb_true_iff in Hf. destruct Hf as [Hf Heq]. rewrite Hf.
  change (is_char "-" 45) with true. cbn [andb].
  rewrite parse_month_dec by exact Hm. rewrite parse_day_dec by exact Hd.
  apply Z.eqb_eq in Heq. rewrite Heq. exact Hmk.
Qed.


(** The following month lies after [today]. *)
Lemma following_month_after (today : date) (y m d : Z) :
  following_month today = (y, m) -> date_le (mkdate y m d) today = false.
Proof.
  unfold following_month, date_le. cbn [year month day].
  destruct (month today <? 12) eqn:E; intros H; injection H as <- <-.
  - apply Z.ltb_lt in E.
    rewrite Z.ltb_irrefl, Z.eqb_refl.
    replace (month today + 1 <? month today) with false by (symmetry; apply Z.ltb_ge; lia).
    replace (month today + 1 =? month today) with false by (symmetry; apply Z.eqb_neq; lia).
    reflexivity.
  - replace (year today + 1 <? year today) with false by (symmetry; apply Z.ltb_ge; lia).
    replace (year today + 1 =? year today) with false by (symmetry; apply Z.eqb_neq; lia).
    reflexivity.
Qed.

End DateFacts.

(** ** Extras on expiry dates *)
Module ExpiryExtras.
Import Controller Models ExpiryFacts DateFacts.

(** [datetime.strptime(v, '%Y-%m-%d')] reads back every valid date with a
    four-digit year written as [f"{year}-{month:02d}-{day:02d}"], the format
    of [next_expiry]. *)
Theorem strptime_reads_iso_format (y m d : Z)
    (Hv : valid_date (mkdate y m d) = true) (Hy : 1000 <= y) :
  strptime_ymd (iso_format y m d) = Ret (mkdate y m d).
Proof. exact (strptime_iso y m d Hv Hy). Qed.

Lemma strptime_reads_iso_format_witness :
  strptime_ymd "2024-02-29" = Ret (mkdate 2024 2 29).
Proof. apply (strptime_reads_iso_format 2024 2 29); [reflexivity|lia]. Defined.

(** On such a date [validate_expiry] accepts exactly the dates after
    [today] and returns the string unchanged; [today] itself is refused. *)
Theorem validate_expiry_iso (today : date) (y m d : Z)
    (Hv : valid_date (mkdate y m d) = true) (Hy : 1000 <= y) :
  validate_expiry today (iso_format y m d) =
    if date_le (mkdate y m d) today
    then Raise (ValueError "Expiry date must be in the future")
    else Ret (iso_format y m d).
Proof.
  unfold validate_expiry. rewrite (strptime_iso y m d Hv Hy). cbn [bind].
  destruct (date_le (mkdate y m d) today); reflexivity.
Qed.

Lemma validate_expiry_iso_witness :
  validate_expiry (mkdate 2024 7 19) "2024-07-19"
  = Raise (ValueError "Expiry date must be in the future").
Proof. apply (validate_expiry_iso (mkdate 2024 7 19) 2024 7 19); [reflexivity|lia]. Defined.

(** [validate_expiry] also accepts the month and day without zero padding
    and stores the string as given, not in the [YYYY-MM-DD] form. *)
Theorem validate_expiry_unpadded (today : date) (y m d : Z)
    (Hv : valid_date (mkdate y m d) = true) (Hy : 1000 <= y) :
  validate_expiry today (z_to_dec y ++ "-" ++ z_to_dec m ++ "-" ++ z_to_dec d) =
    if date_le (mkdate y m d) today
    then Raise (ValueError "Expiry date must be in the future")
    else Ret (z_to_dec y ++ "-" ++ z_to_dec m ++ "-" ++ z_to_dec d).
Proof.
  unfold validate_expiry. rewrite (strptime_unpadded y m d Hv Hy). cbn [bind].
  destruct (date_le (mkdate y m d) today); reflexivity.
Qed.

Lemma validate_expiry_unpadded_witness :
  validate_expiry (mkdate 2025 1 10) "2025-3-7" = Ret "2025-3-7".
Proof. apply (validate_expiry_unpadded (mkdate 2025 1 10) 2025 3 7); [reflexivity|lia]. Defined.

(** The signal the controller builds, posted as its JSON body (no
    [quantity] key), passes the webhook's validation on the same day:
    the strike and premium are kept (as reduced fractions), the expiry is
    kept, and the quantity defaults to 1. *)
Theorem controller_signal_validates (today : date) (st : wheel_state) (sig : csignal)
    (Hv : valid_date today = true) (Hy : 1000 <= year today)
    (Hb : build_signal today st = Ret (Some sig)) :
  validate today (mkpayload (c_action sig) (c_symbol sig) (c_strike sig) (c_expiry sig)
                            (c_premium sig) None)
  = Valid (mksignal (c_action sig) (c_symbol sig) (Qred (c_strike sig)) (c_expiry sig)
                    (Qred (c_premium sig)) (Some 1)).
Proof.
  destruct (next_expiry today) as [e|ex] eqn:Hn.
  2:{ unfold build_signal in Hb. rewrite Hn in Hb.
      destruct (String.eqb (w_state st) "cash"); [discriminate|].
      destruct (String.eqb (w_state st) "assigned"); discriminate. }
  assert (He : validate_expiry today e = Ret e).
  { destruct (valid_date_bounds today Hv) as [Hy' Hm'].
    assert (Hmax : ~ (year today = MAXYEAR /\ month today = 12)).
    { intros [H1 H2]. rewrite (next_expiry_dec_9999 today H1 H2) in Hn. discriminate. }
    destruct (next_expiry_spec today Hy' Hm' Hmax) as (y & m & d & Hf & Hn' & Hvd & _ & _).
    rewrite Hn in Hn'. injection Hn' as ->.
    assert (Hy1 : year today <= y).
    { unfold following_month in Hf.
      destruct (month today <? 12); injection Hf as <- <-; lia. }
    unfold validate_expiry. rewrite (strptime_iso y m d Hvd ltac:(lia)). cbn [bind].
    rewrite (following_month_after today y m d Hf). reflexivity. }
  unfold build_signal in Hb. rewrite Hn in Hb. cbn [bind] in Hb.
  destruct (String.eqb (w_state st) "cash");
    [|destruct (String.eqb (w_state st) "assigned"); [|discriminate]];
    injection Hb as <-; unfold validate; cbn [c_action c_symbol c_strike c_expiry c_premium p_expiry];
    rewrite He; reflexivity.
Qed.

Lemma controller_signal_validates_witness :
  validate (mkdate 2025 11 3) (mkpayload "sell_put" "AAPL" (180 # 1) "2025-12-19" (150 # 100) None)
  = Valid (mksignal "sell_put" "AAPL" (180 # 1) "2025-12-19" (3 # 2) (Some 1)).
Proof.
  apply (controller_signal_validates (mkdate 2025 11 3) (mkwheel "cash" 0 None)
           (mkcsignal "sell_put" "AAPL" (180 # 1) "2025-12-19" (150 # 100)));
    [reflexivity|simpl; lia|reflexivity].
Defined.

End ExpiryExtras.

(** ** The rows the webhook writes *)
Module RowFacts.
Import Models Pipeline PipelineFacts Service Aux.

Lemma webhook_valid_row (today : date) (E : env) (p : payload) (db : list db_record)
    (s : WebhookSignal) :
  validate today p = Valid s ->
  exists rec result,
    webhook today E p db =
      (Resp200 "success" ("Successfully processed " ++ action s ++ " signal")
               (Z.of_nat (length db) + 1) s result, app db [rec]) /\
    r_id rec = Z.of_nat (length db) + 1 /\
    r_action rec = action s /\ r_symbol rec = symbol s /\ r_strike rec = strike s /\
    r_expiry rec = expiry s /\ r_premium rec = premium s /\ r_quantity rec = quantity s /\
    created_at rec = now E /\
    (if alpaca_client E
     then r_status rec = "processed" /\ processed_at rec = Some (now E) /\
          error_message rec = None /\
          alpaca_order_id rec = Some (symbol s)
     else r_status rec = "no_broker" /\ processed_at rec = None /\
          error_message rec = Some "Alpaca client not available" /\ alpaca_order_id rec = None).
Proof.
  intros Hv. unfold webhook. rewrite Hv.
  destruct (valid_action today p s Hv) as [Ha|Ha];
    unfold process_webhook, process_sell_put, process_sell_call, process_sell,
           place_options_order;
    rewrite Ha; cbn;
    destruct (alpaca_client E); cbn;
    eexists; eexists; (split; [reflexivity|]); repeat split.
Qed.

Lemma webhook_invalid (today : date) (E : env) (p : payload) (db : list db_record) errs :
  validate today p = Invalid errs -> webhook today E p db = (Resp422 errs, db).
Proof. intros Hv. unfold webhook. rewrite Hv. reflexivity. Qed.

Lemma serve_rows (client : bool) (reqs : list (date * option PyExc * Z * payload))
    (db : list db_record) :
  exists new,
    serve client reqs db = app db new /\
    length new = length (filter valid_req reqs) /\
    Forall (row_ok client) new.
Proof.
  revert db. induction reqs as [|[[[today f] t] p] reqs IH]; intros db.
  - exists []. rewrite app_nil_r. repeat split; constructor.
  - cbn [serve valid_req filter].
    destruct (validate today p) as [s|errs] eqn:Hv.
    + destruct (webhook_valid_row today (mkenv client f t) p db s Hv)
        as (rec & result & Hw & _ & _ & _ & _ & _ & _ & _ & _ & Hst).
      rewrite Hw. cbn [snd].
      destruct (IH (app db [rec])) as (new & Hs & Hl & Hok).
      exists (rec :: new). rewrite Hs, <- app_assoc. cbn [app].
      split; [reflexivity|]. split; [cbn [length]; rewrite Hl; reflexivity|].
      constructor; [|exact Hok].
      unfold row_ok. cbn [alpaca_client] in Hst.
      destruct client; tauto.
    + rewrite (webhook_invalid today (mkenv client f t) p db errs Hv). cbn [snd].
      exact (IH db).
Qed.

(** [created_at] of newest-first sorted rows, and the rows after the first
    [n]. *)
Lemma sorted_firstn {A} (R : A -> A -> Prop) (n : nat) (l : list A) :
  Sorted R l -> Sorted R (firstn n l).
Proof.
  revert l. induction n as [|n IH]; intros l H; [constructor|].
  destruct l as [|a l]; [constructor|]. cbn [firstn].
  apply Sorted_inv in H. destruct H as [Hl Hh].
  constructor; [apply IH, Hl|].
  destruct n; [constructor|]. destruct l as [|b l]; [constructor|].
  cbn [firstn]. constructor. inversion Hh; assumption.
Qed.

Lemma sorted_impl {A} (R R' : A -> A -> Prop) (l : list A) :
  (forall x y, R x y -> R' x y) -> Sorted R l -> Sorted R' l.
Proof.
  intros HR H. induction H as [|a l Hs IH Hh]; constructor; [exact IH|].
  destruct Hh; constructor. apply HR. assumption.
Qed.

Lemma strongly_sorted_app {A} (R : A -> A -> Prop) (l1 l2 : list A) :
  StronglySorted R (l1 ++ l2) -> forall y x, In y l1 -> In x l2 -> R y x.
Proof.
  induction l1 as [|a l1 IH]; intros H y x Hy Hx; [destruct Hy|].
  cbn [app] in H. apply StronglySorted_inv in H. destruct H as [Hs Hf].
  destruct Hy as [<-|Hy].
  - rewrite Forall_forall in Hf. apply Hf, in_or_app. right. exact Hx.
  - exact (IH Hs y x Hy Hx).
Qed.

Lemma created_desc_trans : Transitive (fun a b => is_true (CreatedDesc.leb a b)).
Proof.
  intros a b c Hab Hbc. unfold is_true, CreatedDesc.leb in *.
  apply Z.leb_le in Hab, Hbc. apply Z.leb_le. lia.
Qed.

End RowFacts.

(** ** Extras on the webhook service *)
Module ServiceExtras.
Import Models Pipeline Service Aux RowFacts.

(** A valid request is answered 200 and appends exactly one row, whose
    id is the [signal_id] of the response and which carries the validated
    fields. With a client configured the row ends [processed], with
    [processed_at] set and no error; without one it ends [no_broker], with
    no [processed_at] and the error "Alpaca client not available". It never
    ends [error] or [pending]. *)
Theorem webhook_valid_one_row (today : date) (E : env) (p : payload) (db : list db_record)
    (s : WebhookSignal) (Hv : validate today p = Valid s) :
  exists rec result,
    webhook today E p db =
      (Resp200 "success" ("Successfully processed " ++ action s ++ " signal")
               (r_id rec) s result, app db [rec]) /\
    r_action rec = action s /\ r_symbol rec = symbol s /\ r_strike rec = strike s /\
    r_expiry rec = expiry s /\ r_premium rec = premium s /\ r_quantity rec = quantity s /\
    (if alpaca_client E
     then r_status rec = "processed" /\ processed_at rec <> None /\ error_message rec = None
     else r_status rec = "no_broker" /\ processed_at rec = None /\
          error_message rec = Some "Alpaca client not available").
Proof.
  destruct (webhook_valid_row today E p db s Hv)
    as (rec & result & Hw & Hid & H1 & H2 & H3 & H4 & H5 & H6 & _ & Hst).
  exists rec, result. rewrite Hid. split; [exact Hw|].
  repeat (split; [assumption|]).
  destruct (alpaca_client E).
  - destruct Hst as (Hs & Hp & He & _). rewrite Hp.
    repeat split; [exact Hs | discriminate | exact He].
  - tauto.
Qed.

Lemma webhook_valid_one_row_witness :
  validate (mkdate 2024 7 1) (mkpayload "Sell_Call" "msft" (410 # 1) "2024-08-16" (2 # 1) None)
  = Valid (mksignal "sell_call" "MSFT" (410 # 1) "2024-08-16" (2 # 1) (Some 1)) /\
  exists rec result,
    webhook (mkdate 2024 7 1) (mkenv false None 7)
      (mkpayload "Sell_Call" "msft" (410 # 1) "2024-08-16" (2 # 1) None) [] =
      (Resp200 "success" ("Successfully processed " ++ "sell_call" ++ " signal")
               (r_id rec) (mksignal "sell_call" "MSFT" (410 # 1) "2024-08-16" (2 # 1) (Some 1))
               result, app [] [rec]) /\
    r_action rec = "sell_call" /\ r_symbol rec = "MSFT" /\ r_strike rec = (410 # 1) /\
    r_expiry rec = "2024-08-16" /\ r_premium rec = (2 # 1) /\ r_quantity rec = Some 1 /\
    (r_status rec = "no_broker" /\ processed_at rec = None /\
     error_message rec = Some "Alpaca client not available").
Proof.
  split; [reflexivity|].
  exact (webhook_valid_one_row (mkdate 2024 7 1) (mkenv false None 7)
           (mkpayload "Sell_Call" "msft" (410 # 1) "2024-08-16" (2 # 1) None) []
           (mksignal "sell_call" "MSFT" (410 # 1) "2024-08-16" (2 # 1) (Some 1)) eq_refl).
Defined.

(** Serving a sequence of requests only appends to the table: the table
    before is a prefix of the table after, one row is added per valid
    request, and every new row is [processed] (with a client) or
    [no_broker] (without). *)
Theorem serve_appends_only (client : bool) (reqs : list (date * option PyExc * Z * payload))
    (db : list db_record) :
  exists new,
    serve client reqs db = app db new /\
    length new = length (filter valid_req reqs) /\
    Forall (fun r => r_status r = if client then "processed" else "no_broker") new.
Proof.
  destruct (serve_rows client reqs db) as (new & H1 & H2 & H3).
  exists new. split; [exact H1|]. split; [exact H2|].
  eapply Forall_impl; [|exact H3]. intros r. unfold row_ok.
  destruct client; tauto.
Qed.

(** Without both credentials, or when connecting fails, there is no
    client, and every row the service then writes is [no_broker] with
    "Alpaca client not available" and no order id. *)
Theorem no_client_rows_no_broker (api_key secret_key : option string) (connect : Exc string)
    (H : truthy api_key = false \/ truthy secret_key = false \/ exists e, connect = Raise e)
    (reqs : list (date * option PyExc * Z * payload)) (db : list db_record) :
  get_alpaca_client api_key secret_key connect = false /\
  exists new,
    serve (get_alpaca_client api_key secret_key connect) reqs db = app db new /\
    Forall (fun r => r_status r = "no_broker" /\
                     error_message r = Some "Alpaca client not available" /\
                     alpaca_order_id r = None) new.
Proof.
  assert (Hc : get_alpaca_client api_key secret_key connect = false).
  { unfold get_alpaca_client.
    destruct H as [H|[H|[e ->]]]; [rewrite H|rewrite H, orb_true_r|];
      [reflexivity|reflexivity|].
    destruct (_ || _); reflexivity. }
  split; [exact Hc|]. rewrite Hc.
  destruct (serve_rows false reqs db) as (new & H1 & _ & H3).
  exists new. split; [exact H1|].
  eapply Forall_impl; [|exact H3]. intros r. unfold row_ok. tauto.
Qed.

Lemma no_client_rows_no_broker_witness :
  get_alpaca_client (Some "") (Some "secret") (Ret "ACTIVE") = false /\
  exists new,
    serve (get_alpaca_client (Some "") (Some "secret") (Ret "ACTIVE"))
      [(mkdate 2024 7 1, None, 5, mkpayload "sell_put" "AAPL" (180 # 1) "2024-07-19" (3 # 2) None)]
      [] = app [] new /\
    Forall (fun r => r_status r = "no_broker" /\
                     error_message r = Some "Alpaca client not available" /\
                     alpaca_order_id r = None) new.
Proof. apply no_client_rows_no_broker. left. reflexivity. Defined.

(** [GET /signals] answers at most 50 rows, newest first: the rows shown
    and the rows left out together are the table, and no row left out is
    newer than a row shown. *)
Theorem get_signals_newest_first (db : list db_record) :
  exists rows rest,
    Permutation db (rows ++ rest) /\
    get_signals db = map view rows /\
    length rows = Nat.min 50 (length db) /\
    Sorted (fun a b => created_at b <= created_at a) rows /\
    (forall r x, In r rows -> In x rest -> created_at x <= created_at r).
Proof.
  exists (firstn 50 (SignalSort.sort db)), (skipn 50 (SignalSort.sort db)).
  split; [rewrite firstn_skipn; apply SignalSort.Permuted_sort|].
  split; [reflexivity|].
  split; [rewrite length_firstn, <- (Permutation_length (SignalSort.Permuted_sort db)); reflexivity|].
  split.
  - apply (sorted_impl (fun a b => is_true (CreatedDesc.leb a b))).
    + intros a b Hab. unfold is_true, CreatedDesc.leb in Hab. apply Z.leb_le in Hab. exact Hab.
    + apply sorted_firstn, SignalSort.Sorted_sort.
  - intros r x Hr Hx.
    pose proof (SignalSort.StronglySorted_sort db created_desc_trans) as Hs.
    rewrite <- (firstn_skipn 50 (SignalSort.sort db)) in Hs.
    pose proof (strongly_sorted_app _ _ _ Hs r x Hr Hx) as Hrx.
    unfold is_true, CreatedDesc.leb in Hrx. apply Z.leb_le in Hrx. exact Hrx.
Qed.

End ServiceExtras.

(** ** Runs of the controller *)
Module WheelRunFacts.
Import Controller ControllerRuns.

Lemma build_signal_not_assigned (today : date) (st : wheel_state) (sig : csignal) :
  String.eqb (w_state st) "assigned" = false ->
  build_signal today st = Ret (Some sig) -> c_action sig = "sell_put".
Proof.
  intros Ha. unfold build_signal. rewrite Ha.
  destruct (String.eqb (w_state st) "cash"); [|discriminate].
  destruct (next_expiry today); cbn [bind]; [|discriminate].
  intros H. injection H as <-. reflexivity.
Qed.

Lemma after_run_step (file : option wheel_state) (today : date) (answer : string)
    (post : post_outcome) :
  String.eqb (w_state (load_state file)) "assigned" = false ->
  let st' := load_state (after_run file today answer post) in
  (w_state st' = w_state (load_state file) \/ w_state st' = "waiting_assignment") /\
  shares_held st' = shares_held (load_state file) /\
  (last_action st' = last_action (load_state file) \/
   exists sig, last_action st' = Some sig /\ c_action sig = "sell_put").
Proof.
  intros Ha st'. subst st'. unfold after_run, main.
  set (st := load_state file).
  destruct (build_signal today st) as [[sig|]|e] eqn:Hb; cbn [bind];
    [|cbn; auto|cbn; auto].
  pose proof (build_signal_not_assigned today st sig Ha Hb) as Hs.
  destruct (String.eqb (PyStr.lower (PyStr.strip answer)) "y"); cbn [saved_state]; [|cbn; auto].
  unfold update_state. rewrite Hs. cbn.
  split; [right; reflexivity|]. split; [reflexivity|]. right. exists sig. auto.
Qed.

End WheelRunFacts.

(** ** Extras on the controller *)
Module WheelExtras.
Import Controller ControllerRuns WheelRunFacts.

(** Nothing in the controller ever sets the state [assigned]: over any
    sequence of runs from a state file that is not [assigned] (or no file),
    the state only stays or becomes [waiting_assignment], [shares_held]
    never changes, the last action saved is a [sell_put], and no run is
    offered a [sell_call]. *)
Theorem wheel_runs_never_assigned (runs : list (date * string * post_outcome))
    (file : option wheel_state)
    (Ha : String.eqb (w_state (load_state file)) "assigned" = false) :
  let st := load_state (run_all runs file) in
  (w_state st = w_state (load_state file) \/ w_state st = "waiting_assignment") /\
  shares_held st = shares_held (load_state file) /\
  (last_action st = last_action (load_state file) \/
   exists sig, last_action st = Some sig /\ c_action sig = "sell_put") /\
  (forall today sig, build_signal today st = Ret (Some sig) -> c_action sig = "sell_put").
Proof.
  intros st. subst st.
  assert (Hinv :
    (w_state (load_state (run_all runs file)) = w_state (load_state file) \/
     w_state (load_state (run_all runs file)) = "waiting_assignment") /\
    shares_held (load_state (run_all runs file)) = shares_held (load_state file) /\
    (last_action (load_state (run_all runs file)) = last_action (load_state file) \/
     exists sig, last_action (load_state (run_all runs file)) = Some sig /\
                 c_action sig = "sell_put")).
  { revert file Ha. induction runs as [|[[today answer] post] runs IH]; intros file Ha.
    - cbn [run_all]. auto.
    - cbn [run_all].
      destruct (after_run_step file today answer post Ha) as (H1 & H2 & H3).
      assert (Ha' : String.eqb (w_state (load_state (after_run file today answer post)))
                      "assigned" = false).
      { destruct H1 as [-> | ->]; [exact Ha|reflexivity]. }
      destruct (IH _ Ha') as (I1 & I2 & I3).
      split; [|split].
      + destruct I1 as [-> | ->]; [exact H1|right; reflexivity].
      + rewrite I2. exact H2.
      + destruct I3 as [-> | I3]; [exact H3|right; exact I3]. }
  destruct Hinv as (H1 & H2 & H3).
  split; [exact H1|]. split; [exact H2|]. split; [exact H3|].
  intros today sig. apply build_signal_not_assigned.
  destruct H1 as [-> | ->]; [exact Ha|reflexivity].
Qed.

Lemma wheel_runs_never_assigned_witness :
  let st := load_state (run_all [(mkdate 2025 11 3, " Y ", PostRaised (OtherError "refused"));
                                 (mkdate 2025 12 1, "y", PostResponse 200 (Ret "{}"))] None) in
  (w_state st = "cash" \/ w_state st = "waiting_assignment") /\
  shares_held st = 0 /\
  (last_action st = None \/ exists sig, last_action st = Some sig /\ c_action sig = "sell_put") /\
  (forall today sig, build_signal today st = Ret (Some sig) -> c_action sig = "sell_put").
Proof. apply (wheel_runs_never_assigned _ None). reflexivity. Defined.

End WheelExtras.

(** ** Extras on symbols *)
Module SymbolFacts.
Import PyStr Models StrFacts.

(** A string from which a final newline can be dropped ends in one. *)
Lemma drop_final_newline_some (v c : string) :
  drop_final_newline v = Some c -> v = c ++ String "010" EmptyString.
Proof.
  revert c. induction v as [|a v IH]; intros c H; [discriminate|].
  destruct v as [|b v].
  - cbn in H. destruct (Ascii.eqb a "010") eqn:E; [|discriminate].
    injection H as <-. apply Ascii.eqb_eq in E. subst. reflexivity.
  - rewrite drop_final_newline_cons in H by discriminate.
    destruct (drop_final_newline (String b v)) as [c'|] eqn:E; [|discriminate].
    cbn in H. injection H as <-. rewrite (IH c' eq_refl). reflexivity.
Qed.

End SymbolFacts.

Module SymbolExtras.
Import PyStr Models StrFacts SymbolFacts.

(** A stored symbol has 1 to 10 characters and no lower-case letter: it is
    letters only, or letters followed by a single newline. *)
Theorem validate_symbol_output (v s : string) (H : validate_symbol v = Ret s) :
  (1 <= String.length s <= 10)%nat /\ upper s = s /\
  (all_alpha s = true \/
   exists c, s = c ++ String "010" EmptyString /\ all_alpha c = true).
Proof.
  unfold validate_symbol in H.
  destruct (String.length v <? 1)%nat eqn:E1; [discriminate|].
  destruct (10 <? String.length v)%nat eqn:E2; [discriminate|].
  destruct (symbol_re_match v) eqn:E3; [|discriminate].
  simpl negb in H. injection H as <-.
  apply Nat.ltb_ge in E1, E2.
  split; [rewrite length_upper; lia|]. split; [apply upper_upper|].
  unfold symbol_re_match in E3. apply orb_true_iff in E3.
  destruct E3 as [E3|E3].
  - left. rewrite all_alpha_upper. unfold alpha_1_10 in E3.
    apply andb_true_iff in E3. tauto.
  - destruct (drop_final_newline v) as [c|] eqn:Ed; [|discriminate].
    right. exists (upper c).
    rewrite (drop_final_newline_some v c Ed), upper_app. split; [reflexivity|].
    rewrite all_alpha_upper. unfold alpha_1_10 in E3.
    apply andb_true_iff in E3. tauto.
Qed.

Lemma validate_symbol_output_witness :
  (1 <= String.length "SPY" <= 10)%nat /\ upper "SPY" = "SPY" /\
  (all_alpha "SPY" = true \/
   exists c, "SPY" = c ++ String "010" EmptyString /\ all_alpha c = true).
Proof. apply (validate_symbol_output "spy"). reflexivity. Defined.

End SymbolExtras.
